(** * Retail sales forecast dashboard (backup.py): a shallow embedding

    The dashboard is one top-to-bottom script.  Its first-party logic is
    table filtering, four summary metrics, the orchestration of a
    forecasting library and two group-by aggregations.  The tables are
    pandas frames; they are modelled here as lists of rows in frame order.

    Conventions of the model:
    - a calendar date is the number of days since 1970-01-01 (a [Z]); the
      [date] column holds whole days ([pd.to_datetime] of date strings);
    - [sales] is a count of units, read as an int64 column: a [Z], added up
      with the wrap-around of 64-bit arithmetic; [margin],
      [out_of_stock_pct] and every mean are exact rationals ([Q]) standing
      for the float columns, so a mean is exact only where float64
      arithmetic is;
    - the table has no missing field, and [state], [store_id] and
      [product_id] are read as text;
    - a raw frame row carries its index label, as pandas rows do. *)

From Stdlib Require Import String Ascii.
From Stdlib Require Import List ZArith QArith Bool Lia.
From Stdlib Require Import Permutation Sorted.
Import ListNotations.

Local Open Scope string_scope.
Local Open Scope list_scope.
Local Open Scope Z_scope.

(** ** Calendar dates *)

(** Days since 1970-01-01 of the proleptic Gregorian date [y]-[m]-[d]. *)
Definition ymd (y m d : Z) : Z :=
  let y' := if m <=? 2 then y - 1 else y in
  let era := y' / 400 in
  let yoe := y' - era * 400 in
  let mp := (m + 9) mod 12 in
  let doy := (153 * mp + 2) / 5 + d - 1 in
  let doe := yoe * 365 + yoe / 4 - yoe / 100 + doy in
  era * 146097 + doe - 719468.

(** ** Data model *)

(** One row of enhanced_sample_sales.csv. *)
Record SalesRecord := mkSale {
  date : Z;
  state : string;
  store_id : string;
  product_id : string;
  sales : Z;
  margin : Q;
  out_of_stock_pct : Q
}.

(** A frame over the raw schema: rows in order, each with its index label. *)
Definition DataFrame := list (nat * SalesRecord).

(** [load_data]: [pd.read_csv] gives the rows a RangeIndex 0, 1, 2, ... *)
Definition load_data (csv : list SalesRecord) : DataFrame :=
  combine (seq 0 (length csv)) csv.

Definition col {A} (f : SalesRecord -> A) (df : DataFrame) : list A :=
  map (fun ir => f (snd ir)) df.

(** ** Generic pandas helpers *)

(** [Series.unique()]: distinct values in order of first appearance. *)
Fixpoint unique {A} (eqb : A -> A -> bool) (l : list A) : list A :=
  match l with
  | [] => []
  | x :: xs => x :: filter (fun y => negb (eqb x y)) (unique eqb xs)
  end.

(** A stable sort by insertion, for [sorted(...)], [sort_values] and the
    sorted group keys of [groupby].  Where pandas sorts with an unstable
    algorithm the order it gives to equal keys may differ from this one;
    nothing below depends on that order. *)
Fixpoint insert_by {A} (leb : A -> A -> bool) (x : A) (l : list A) : list A :=
  match l with
  | [] => [x]
  | y :: ys => if leb x y then x :: l else y :: insert_by leb x ys
  end.

Fixpoint sort_by {A} (leb : A -> A -> bool) (l : list A) : list A :=
  match l with
  | [] => []
  | x :: xs => insert_by leb x (sort_by leb xs)
  end.

Definition sorted_strings : list string -> list string := sort_by String.leb.

(** The exact sum of a list of integers. *)
Fixpoint Zsum (l : list Z) : Z :=
  match l with
  | [] => 0
  | x :: xs => x + Zsum xs
  end.

(** An integer reduced to the int64 range [-2^63, 2^63): what 64-bit
    arithmetic keeps of it. *)
Definition wrap64 (z : Z) : Z := (z + 2 ^ 63) mod 2 ^ 64 - 2 ^ 63.

(** [Series.sum()] of an int64 column: an int64 accumulator, every addition
    wrapping around without an error. *)
Definition int64_sum (l : list Z) : Z :=
  fold_left (fun acc x => wrap64 (acc + x)) l 0.

Fixpoint Qsum (l : list Q) : Q :=
  match l with
  | [] => 0%Q
  | x :: xs => (x + Qsum xs)%Q
  end.

(** [Series.mean()]: [None] stands for the NaN of an empty column. *)
Definition mean (l : list Q) : option Q :=
  match l with
  | [] => None
  | _ => Some (Qsum l / inject_Z (Z.of_nat (length l)))%Q
  end.

(** [Series.max()] of a date column: [None] stands for NaT. *)
Fixpoint Zmax_list (l : list Z) : option Z :=
  match l with
  | [] => None
  | x :: xs => match Zmax_list xs with
               | None => Some x
               | Some m => Some (Z.max x m)
               end
  end.

(** ** Filters (lines 44-54) *)

(** [st.sidebar.selectbox(label, options)]: the option the user picked,
    [None] when there is nothing to pick from.  [pick] is the position of
    the picked option; the widget starts on the first option, which also
    stands for a position out of range. *)
Definition selectbox (options : list string) (pick : nat) : option string :=
  match options with
  | [] => None
  | first :: _ => Some (nth pick options first)
  end.

(** One entry of the mask [column == choice]; no value equals [None]. *)
Definition equals (v : string) (choice : option string) : bool :=
  match choice with
  | Some s => String.eqb v s
  | None => false
  end.

Definition state_options (raw_df : DataFrame) : list string :=
  sorted_strings (unique String.eqb (col state raw_df)).

Definition stores (raw_df : DataFrame) (st : option string) : list string :=
  unique String.eqb
    (col store_id (filter (fun ir => equals (state (snd ir)) st) raw_df)).

Definition store_options (raw_df : DataFrame) (st : option string)
  : list string :=
  sorted_strings (stores raw_df st).

Definition products (raw_df : DataFrame) (st so : option string)
  : list string :=
  unique String.eqb
    (col product_id
       (filter (fun ir => equals (state (snd ir)) st
                          && equals (store_id (snd ir)) so) raw_df)).

Definition product_options (raw_df : DataFrame) (st so : option string)
  : list string :=
  sorted_strings (products raw_df st so).

(** The boolean mask of lines 51-53. *)
Definition selected (st so pr : option string) (r : SalesRecord) : bool :=
  equals (state r) st && equals (store_id r) so && equals (product_id r) pr.

Definition filtered_df (raw_df : DataFrame) (st so pr : option string)
  : DataFrame :=
  filter (fun ir => selected st so pr (snd ir)) raw_df.

(** ** Exceptions *)

(** The Python exceptions the script can raise.  [ProphetError] stands for
    any error raised inside the forecasting library while fitting or
    predicting.  The script has no [try]/[except]: a raised exception ends
    the run. *)
Inductive PyExn := IndexError | ValueError | ProphetError.

(** ** KPIs (lines 57-60) *)

(** [sort_values("date")].  The rows come out in ascending date order; the
    order among rows of equal date is the frame order here, while pandas'
    default sort may order them otherwise. *)
Definition sort_values_date (df : DataFrame) : DataFrame :=
  sort_by (fun a b => date (snd a) <=? date (snd b)) df.

(** [.iloc[-1]]: the last row; out of bounds on an empty frame. *)
Definition iloc_last {A} (df : list A) : PyExn + A :=
  match rev df with
  | [] => inl IndexError
  | r :: _ => inr r
  end.

Definition latest (filtered : DataFrame) : PyExn + SalesRecord :=
  match iloc_last (sort_values_date filtered) with
  | inl e => inl e
  | inr ir => inr (snd ir)
  end.

Definition avg_sales (filtered : DataFrame) : option Q :=
  mean (map inject_Z (col sales filtered)).

Definition avg_margin (filtered : DataFrame) : option Q :=
  mean (col margin filtered).

Definition avg_outstock (filtered : DataFrame) : option Q :=
  mean (col out_of_stock_pct filtered).

(** ** Frames with named columns

    Column selection, renaming and merging change the schema, so the frames
    of the forecast section are rows of named cells.  Their index labels are
    dropped: no later line reads them. *)

Inductive Cell :=
| CDate (d : Z)
| CInt (n : Z)
| CFloat (q : Q)
| CStr (s : string).

Definition Row := list (string * Cell).
Definition Frame := list Row.

Definition cells (r : SalesRecord) : Row :=
  [ ("date", CDate (date r)); ("state", CStr (state r));
    ("store_id", CStr (store_id r)); ("product_id", CStr (product_id r));
    ("sales", CInt (sales r)); ("margin", CFloat (margin r));
    ("out_of_stock_pct", CFloat (out_of_stock_pct r)) ].

(** [row[c]]: the cell of column [c], [None] when the row has no such column. *)
Fixpoint get (c : string) (r : Row) : option Cell :=
  match r with
  | [] => None
  | (k, v) :: r' => if String.eqb k c then Some v else get c r'
  end.

(** [df[[c1, c2, ...]]] on one row. *)
Definition select (cs : list string) (r : Row) : Row :=
  flat_map (fun c => match get c r with
                     | Some v => [(c, v)]
                     | None => []
                     end) cs.

Fixpoint renamed (m : list (string * string)) (k : string) : string :=
  match m with
  | [] => k
  | (old, new) :: m' => if String.eqb old k then new else renamed m' k
  end.

(** [df.rename(columns=m)] on one row. *)
Definition rename (m : list (string * string)) (r : Row) : Row :=
  map (fun kv => (renamed m (fst kv), snd kv)) r.

Definition cell_eqb (a b : Cell) : bool :=
  match a, b with
  | CDate x, CDate y => x =? y
  | CInt x, CInt y => x =? y
  | CFloat x, CFloat y => Qeq_bool x y
  | CStr x, CStr y => String.eqb x y
  | _, _ => false
  end.

(** The dates held in column [c] of a frame. *)
Definition date_column (c : string) (f : Frame) : list Z :=
  flat_map (fun r => match get c r with
                     | Some (CDate d) => [d]
                     | _ => []
                     end) f.

Definition int_column (c : string) (f : Frame) : list Z :=
  flat_map (fun r => match get c r with
                     | Some (CInt n) => [n]
                     | _ => []
                     end) f.

(** [pd.merge(left, right, on=key)], an inner join ([how] is left at its
    default): the rows of [left] in order, each paired with every row of
    [right] that has the same key, the key column kept once. *)
Definition key_matches (key : string) (k : Cell) (r : Row) : bool :=
  match get key r with
  | Some k' => cell_eqb k k'
  | None => false
  end.

Definition drop_column (key : string) (r : Row) : Row :=
  filter (fun kv => negb (String.eqb (fst kv) key)) r.

Definition merge (key : string) (left right : Frame) : Frame :=
  flat_map
    (fun l =>
       match get key l with
       | None => []
       | Some k =>
           map (fun r => l ++ drop_column key r)
               (filter (key_matches key k) right)
       end) left.

(** ** The forecasting library (lines 69-75)

    Prophet is an external capability.  What it estimates is opaque: a
    [Forecaster] supplies the fitted parameters and the predicted values,
    and either call may raise.  What the script relies on is Prophet's
    documented frame handling, which is modelled: [fit] refuses a history
    of fewer than two rows and records the distinct history dates in
    ascending order; [make_future_dataframe] appends [periods] daily dates
    after the last history date to these recorded dates; [predict] returns
    one row per row of the frame it is given, in date order. *)

Record Forecaster := {
  Params : Type;
  fit_params : Frame -> PyExn + Params;
  predict_yhat : Params -> Frame -> PyExn + (Z -> Q)
}.

Record Prophet (fc : Forecaster) := mkProphet {
  history_dates : list Z;
  params : Params fc
}.

Arguments mkProphet {fc}.
Arguments history_dates {fc}.
Arguments params {fc}.

Definition df_prophet (filtered : DataFrame) : Frame :=
  map (fun ir => rename [("date", "ds"); ("sales", "y")]
                   (select ["date"; "sales"] (cells (snd ir)))) filtered.

Definition fit (fc : Forecaster) (df : Frame) : PyExn + Prophet fc :=
  if (List.length df <? 2)%nat then inl ValueError
  else match fit_params fc df with
       | inl e => inl e
       | inr p => inr (mkProphet (sort_by Z.leb (unique Z.eqb (date_column "ds" df))) p)
       end.

(** [pd.date_range(start, periods=n, freq='D')]. *)
Definition date_range (start : Z) (n : nat) : list Z :=
  map (fun k => start + Z.of_nat k) (seq 0 n).

Definition ds_row (d : Z) : Row := [("ds", CDate d)].

(** The dates [make_future_dataframe] adds after [last_date]. *)
Definition future_dates (last_date : Z) (periods : nat) : list Z :=
  let dates := date_range last_date (periods + 1) in
  let dates := filter (fun d => last_date <? d) dates in
  firstn periods dates.

Definition make_future_dataframe {fc} (model : Prophet fc) (periods : nat)
  : PyExn + Frame :=
  match Zmax_list (history_dates model) with
  | None => inl ValueError
  | Some last_date =>
      inr (map ds_row (history_dates model ++ future_dates last_date periods))
  end.

(** A row of the forecast frame, cut down to the columns the script reads. *)
Definition forecast_row (yhat : Z -> Q) (d : Z) : Row :=
  [("ds", CDate d); ("yhat", CFloat (yhat d))].

Definition predict {fc} (model : Prophet fc) (future : Frame) : PyExn + Frame :=
  match predict_yhat fc (params model) future with
  | inl e => inl e
  | inr yhat =>
      inr (map (forecast_row yhat) (sort_by Z.leb (date_column "ds" future)))
  end.

(** Line 74: [pd.merge(future, forecast[["ds", "yhat"]], on="ds")]. *)
Definition merged (future forecast : Frame) : Frame :=
  merge "ds" future (map (select ["ds"; "yhat"]) forecast).

(** Lines 70-74: fit, extend the dates, predict and merge. *)
Definition forecast_merged (fc : Forecaster) (dfp : Frame) : PyExn + Frame :=
  match fit fc dfp with
  | inl e => inl e
  | inr model =>
      match make_future_dataframe model 30 with
      | inl e => inl e
      | inr future =>
          match predict model future with
          | inl e => inl e
          | inr forecast => inr (merged future forecast)
          end
      end
  end.

(** Lines 70-74 raise when the fit raises, or when the prediction on the
    extended dates raises. *)
Definition forecast_raises (fc : Forecaster) (dfp : Frame) (e : PyExn) : Prop :=
  fit fc dfp = inl e
  \/ exists model future,
       fit fc dfp = inr model
       /\ make_future_dataframe model 30 = inr future
       /\ predict model future = inl e.

(** The forecaster does not raise in this run: fitting this history
    returns, and so does predicting on the extended dates built from the
    fitted model. *)
Definition forecaster_returns (fc : Forecaster) (dfp : Frame) : Prop :=
  (exists p, fit_params fc dfp = inr p)
  /\ forall model future,
       fit fc dfp = inr model ->
       make_future_dataframe model 30 = inr future ->
       exists yhat, predict_yhat fc (params model) future = inr yhat.

(** Line 75: [df_prophet["ds"].max()]. *)
Definition cutoff (dfp : Frame) : option Z := Zmax_list (date_column "ds" dfp).

(** The mask [display_df['ds'] > cutoff] on one row.  A comparison with a
    missing cutoff (NaT) is false. *)
Definition after_cutoff (cut : option Z) (r : Row) : bool :=
  match get "ds" r, cut with
  | Some (CDate d), Some c => c <? d
  | _, _ => false
  end.

(** Line 116: the rows of [merged] after the cutoff, columns renamed. *)
Definition display_df (mrg : Frame) (cut : option Z) : Frame :=
  map (rename [("ds", "Date"); ("yhat", "Forecasted Sales")])
      (filter (after_cutoff cut) mrg).

(** ** Aggregation views (lines 96 and 104-105) *)

(** The rows of [df] whose key is [k]. *)
Definition group_rows (key : SalesRecord -> string) (df : DataFrame)
           (k : string) : DataFrame :=
  filter (fun ir => String.eqb (key (snd ir)) k) df.

(** The total of [sales] over the rows of [df] whose key is [k], as the
    int64 sum that [groupby(...)["sales"].sum()] computes. *)
Definition group_total (key : SalesRecord -> string) (df : DataFrame)
           (k : string) : Z :=
  int64_sum (col sales (group_rows key df k)).

(** [df.groupby(key)["sales"].sum()]: one entry per distinct key, keys in
    ascending order. *)
Definition groupby_sum (key : SalesRecord -> string) (df : DataFrame)
  : list (string * Z) :=
  map (fun k => (k, group_total key df k))
      (sorted_strings (unique String.eqb (col key df))).

(** [Series.nlargest(n)]: the [n] largest values in descending order, equal
    values in their order of appearance. *)
Definition nlargest (n : nat) (s : list (string * Z)) : list (string * Z) :=
  firstn n (sort_by (fun a b => snd b <=? snd a) s).

Definition topNProducts (raw_df : DataFrame) (n : nat) : list (string * Z) :=
  nlargest n (groupby_sum product_id raw_df).

Definition top5_df (raw_df : DataFrame) : list (string * Z) :=
  topNProducts raw_df 5.

Definition latest_date (raw_df : DataFrame) : option Z :=
  Zmax_list (col date raw_df).

(** The mask [raw_df["date"] >= latest_date - Timedelta(days=windowDays)]. *)
Definition trailing_window (raw_df : DataFrame) (windowDays : Z) : DataFrame :=
  filter (fun ir => match latest_date raw_df with
                    | Some m => m - windowDays <=? date (snd ir)
                    | None => false
                    end) raw_df.

Definition storeSalesTrailingWindow (raw_df : DataFrame) (windowDays : Z)
  : list (string * Z) :=
  groupby_sum store_id (trailing_window raw_df windowDays).

Definition store_agg (raw_df : DataFrame) : list (string * Z) :=
  storeSalesTrailingWindow raw_df 7.

(** ** The script

    The script renders its outputs one after the other; an exception ends
    the run and leaves on the page what was rendered before it.  Headings,
    styling, number formatting and the rounding of the displayed table are
    left out. *)

Inductive Output :=
| LatestSalesBox (v : Z)
| AvgMarginBox (v : option Q)
| AvgOutOfStockBox (v : option Q)
| AvgDailySalesBox (v : option Q)
| ForecastChart (actual forecast : Frame) (cut : option Z) (annotation_y : Z)
| Top5Chart (bars : list (string * Z))
| StoreChart (bars : list (string * Z))
| ForecastTable (rows : Frame).

Inductive View :=
| VLatestSales | VAvgMargin | VAvgOutOfStock | VAvgDailySales
| VForecastChart | VTop5 | VStoreSales | VForecastTable.

Definition view_of (o : Output) : View :=
  match o with
  | LatestSalesBox _ => VLatestSales
  | AvgMarginBox _ => VAvgMargin
  | AvgOutOfStockBox _ => VAvgOutOfStock
  | AvgDailySalesBox _ => VAvgDailySales
  | ForecastChart _ _ _ _ => VForecastChart
  | Top5Chart _ => VTop5
  | StoreChart _ => VStoreSales
  | ForecastTable _ => VForecastTable
  end.

(** A computation that renders outputs and may raise. *)
Definition Script (A : Type) : Type := list Output -> (PyExn + A) * list Output.

Definition ret {A} (a : A) : Script A := fun page => (inr a, page).

Definition bind {A B} (m : Script A) (k : A -> Script B) : Script B :=
  fun page => match m page with
              | (inl e, page') => (inl e, page')
              | (inr a, page') => k a page'
              end.

Definition render (o : Output) : Script unit := fun page => (inr tt, page ++ [o]).

Definition lift {A} (r : PyExn + A) : Script A := fun page => (r, page).

Notation "x <- m ;; k" := (bind m (fun x => k))
  (at level 61, m at next level, right associativity).
Notation "m ;;; k" := (bind m (fun _ => k))
  (at level 61, right associativity).

(** Python's builtin [max] over a column: raises on an empty one. *)
Definition py_max (l : list Z) : PyExn + Z :=
  match Zmax_list l with
  | None => inl ValueError
  | Some m => inr m
  end.

(** Lines 50-117, for the three selected values. *)
Definition dashboard (fc : Forecaster) (raw_df : DataFrame)
           (st so pr : option string) : Script unit :=
  let filtered := filtered_df raw_df st so pr in
  last_row <- lift (latest filtered) ;;
  render (LatestSalesBox (sales last_row)) ;;;
  render (AvgMarginBox (avg_margin filtered)) ;;;
  render (AvgOutOfStockBox (avg_outstock filtered)) ;;;
  render (AvgDailySalesBox (avg_sales filtered)) ;;;
  let dfp := df_prophet filtered in
  mrg <- lift (forecast_merged fc dfp) ;;
  let cut := cutoff dfp in
  top_y <- lift (py_max (int_column "y" dfp)) ;;
  render (ForecastChart dfp mrg cut top_y) ;;;
  render (Top5Chart (top5_df raw_df)) ;;;
  render (StoreChart (store_agg raw_df)) ;;;
  render (ForecastTable (display_df mrg cut)).

(** The whole script: load the table, read the three select boxes (each
    offers what the table holds under the choices made above it), then
    compute and render. *)
Definition script (fc : Forecaster) (csv : list SalesRecord) (i j k : nat)
  : Script unit :=
  let raw_df := load_data csv in
  let st := selectbox (state_options raw_df) i in
  let so := selectbox (store_options raw_df st) j in
  let pr := selectbox (product_options raw_df st so) k in
  dashboard fc raw_df st so pr.

(** The outcome of a run on a fresh page. *)
Definition run {A} (s : Script A) : (PyExn + A) * list Output := s [].

Definition rendered {A} (outcome : (PyExn + A) * list Output) : list View :=
  map view_of (snd outcome).

Definition uncaught {A} (outcome : (PyExn + A) * list Output) : option PyExn :=
  match fst outcome with
  | inl e => Some e
  | inr _ => None
  end.

(** ** Sample inputs *)

(** The three rows of the worked scenario: one state, store and product,
    three consecutive days.  Margin and out-of-stock values are free. *)
Definition scenario_rows (mg1 os1 mg2 os2 mg3 os3 : Q) : list SalesRecord :=
  [ mkSale (ymd 2024 1 1) "CA" "S1" "P1" 10 mg1 os1;
    mkSale (ymd 2024 1 2) "CA" "S1" "P1" 20 mg2 os2;
    mkSale (ymd 2024 1 3) "CA" "S1" "P1" 30 mg3 os3 ].

(** A small table: product P1 of store S1 sold on 2024-01-01 and 2024-01-03
    (no row for 2024-01-02); store S2 sells only P2; the last date of the
    table is 2024-01-10. *)
Definition sample_raw : DataFrame :=
  load_data
    [ mkSale (ymd 2024 1 1) "CA" "S1" "P1" 10 (1 # 2) (3 # 10);
      mkSale (ymd 2024 1 3) "CA" "S1" "P1" 20 (1 # 2) (3 # 10);
      mkSale (ymd 2024 1 3) "CA" "S2" "P2" 30 (1 # 2) (3 # 10);
      mkSale (ymd 2024 1 10) "NY" "S3" "P1" 5 (1 # 2) (3 # 10) ].

(** A forecaster that never raises and predicts the day number. *)
Definition naive_forecaster : Forecaster :=
  {| Params := unit;
     fit_params := fun _ => inr tt;
     predict_yhat := fun _ _ => inr (fun d => inject_Z d) |}.

(** A forecaster whose fit raises. *)
Definition failing_forecaster : Forecaster :=
  {| Params := unit;
     fit_params := fun _ => inl ProphetError;
     predict_yhat := fun _ _ => inr (fun d => inject_Z d) |}.

(** A forecaster that, like Prophet, refuses to predict on a frame without
    rows and otherwise predicts the day number. *)
Definition prophet_like_forecaster : Forecaster :=
  {| Params := unit;
     fit_params := fun _ => inr tt;
     predict_yhat := fun _ future =>
                       match future with
                       | [] => inl ValueError
                       | _ :: _ => inr (fun d => inject_Z d)
                       end |}.

(** A table whose sales of product P1 add up to 2^63, one more than the
    greatest int64. *)
Definition overflow_raw : DataFrame :=
  load_data
    [ mkSale (ymd 2024 1 1) "CA" "S1" "P1" 9223372036854775807 (1 # 2) (3 # 10);
      mkSale (ymd 2024 1 2) "CA" "S1" "P1" 1 (1 # 2) (3 # 10);
      mkSale (ymd 2024 1 2) "CA" "S1" "P2" 5 (1 # 2) (3 # 10) ].

(** Decidable equality of rows, for counting occurrences. *)
Definition Q_eq_dec (a b : Q) : {a = b} + {a <> b}.
Proof. decide equality; [apply Pos.eq_dec | apply Z.eq_dec]. Defined.

Definition SalesRecord_eq_dec (a b : SalesRecord) : {a = b} + {a <> b}.
Proof.
  decide equality;
    try apply Q_eq_dec; try apply Z.eq_dec; apply string_dec.
Defined.

Definition indexed_eq_dec (a b : nat * SalesRecord) : {a = b} + {a <> b}.
Proof. decide equality; [apply SalesRecord_eq_dec | apply Nat.eq_dec]. Defined.

(** * Properties *)

(** ** Dates *)

Lemma ymd_examples :
  ymd 1970 1 1 = 0 /\ ymd 2024 1 1 = 19723 /\ ymd 2024 2 29 + 1 = ymd 2024 3 1
  /\ ymd 2024 1 10 - 7 = ymd 2024 1 3.
Proof. repeat split; reflexivity. Qed.

(** ** Facts about the pandas helpers *)

Section UniqueSort.
Context {A : Type}.
Variable eqb : A -> A -> bool.
Hypothesis eqb_spec : forall x y, eqb x y = true <-> x = y.

Lemma unique_In (x : A) (l : list A) : In x (unique eqb l) <-> In x l.
Proof using eqb_spec.
  induction l as [|a l IH]; simpl; [tauto|].
  rewrite filter_In, IH.
  split.
  - intros [H | [H _]]; auto.
  - intros [H | H]; auto.
    destruct (eqb a x) eqn:E.
    + left. now apply eqb_spec.
    + right. split; auto.
Qed.

Lemma unique_NoDup (l : list A) : NoDup (unique eqb l).
Proof using eqb_spec.
  induction l as [|a l IH]; simpl; constructor.
  - rewrite filter_In. intros [_ H].
    assert (E : eqb a a = true) by now apply eqb_spec.
    rewrite E in H. discriminate.
  - now apply NoDup_filter.
Qed.
End UniqueSort.

Section SortBy.
Context {A : Type}.
Variable leb : A -> A -> bool.

Lemma insert_by_perm (x : A) (l : list A) :
  Permutation (insert_by leb x l) (x :: l).
Proof.
  induction l as [|y l IH]; simpl; auto.
  destruct (leb x y); auto.
  rewrite IH. apply perm_swap.
Qed.

Lemma sort_by_perm (l : list A) : Permutation (sort_by leb l) l.
Proof.
  induction l as [|x l IH]; simpl; auto.
  rewrite insert_by_perm. now constructor.
Qed.

Lemma sort_by_In (x : A) (l : list A) : In x (sort_by leb l) <-> In x l.
Proof.
  split; apply Permutation_in;
    [apply sort_by_perm | apply Permutation_sym, sort_by_perm].
Qed.

Lemma sort_by_length (l : list A) : List.length (sort_by leb l) = List.length l.
Proof. apply Permutation_length, sort_by_perm. Qed.

Hypothesis leb_total : forall a b, leb a b = true \/ leb b a = true.

Let le (a b : A) : Prop := leb a b = true.

Lemma insert_by_sorted (x : A) (l : list A) :
  Sorted le l -> Sorted le (insert_by leb x l).
Proof using leb_total.
  induction l as [|y l IH]; simpl; intros Hs.
  - repeat constructor.
  - destruct (leb x y) eqn:E.
    + constructor; auto.
    + inversion Hs as [|? ? Hl Hh]; subst.
      constructor; auto.
      destruct l as [|z l]; simpl.
      * constructor. destruct (leb_total x y); [congruence | assumption].
      * destruct (leb x z); constructor.
        -- destruct (leb_total x y); [congruence | assumption].
        -- now inversion Hh.
Qed.

Lemma sort_by_sorted (l : list A) : Sorted le (sort_by leb l).
Proof using leb_total.
  induction l; simpl; [constructor | now apply insert_by_sorted].
Qed.

Hypothesis leb_trans :
  forall a b c, leb a b = true -> leb b c = true -> leb a c = true.

Lemma sort_by_strongly_sorted (l : list A) :
  StronglySorted le (sort_by leb l).
Proof using leb_total leb_trans.
  apply Sorted_StronglySorted; [|apply sort_by_sorted].
  intros a b c. apply leb_trans.
Qed.
End SortBy.

Lemma Zmax_list_spec (l : list Z) (m : Z) :
  Zmax_list l = Some m -> In m l /\ forall x, In x l -> x <= m.
Proof.
  revert m. induction l as [|a l IH]; simpl; intros m H; [discriminate|].
  destruct (Zmax_list l) as [m'|] eqn:E.
  - injection H as <-. destruct (IH m' eq_refl) as [Hin Hle].
    split.
    + destruct (Z.max_spec a m') as [[_ ->] | [_ ->]]; auto.
    + intros x [<- | Hx]; [lia|]. specialize (Hle x Hx). lia.
  - injection H as <-. destruct l; [|simpl in E; destruct (Zmax_list l); discriminate].
    split; [now left|]. intros x [<- | []]. lia.
Qed.

Lemma Zmax_list_some (l : list Z) : l <> [] -> exists m, Zmax_list l = Some m.
Proof.
  destruct l as [|a l]; [congruence|]. intros _. simpl.
  destruct (Zmax_list l); eauto.
Qed.

Lemma Zmax_list_unique (l : list Z) (m m' : Z) :
  In m l -> (forall x, In x l -> x <= m) -> Zmax_list l = Some m' -> m' = m.
Proof.
  intros Hin Hle H. apply Zmax_list_spec in H as [Hin' Hle'].
  specialize (Hle _ Hin'). specialize (Hle' _ Hin). lia.
Qed.

(** Two lists with the same elements have the same maximum. *)
Lemma Zmax_list_ext (l l' : list Z) :
  (forall x, In x l <-> In x l') -> Zmax_list l = Zmax_list l'.
Proof.
  intros H. destruct l as [|a l].
  - destruct l' as [|b l']; auto. exfalso. apply (H b). now left.
  - destruct (Zmax_list_some (a :: l)) as [m Hm]; [congruence|].
    assert (Hl' : l' <> []).
    { intros ->. apply (H a). now left. }
    destruct (Zmax_list_some l' Hl') as [m' Hm'].
    rewrite Hm, Hm'. f_equal.
    apply Zmax_list_spec in Hm as [Hin Hle].
    symmetry. apply (Zmax_list_unique l'); auto.
    + now apply H.
    + intros x Hx. apply Hle. now apply H.
Qed.

(** ** 64-bit sums *)

Lemma wrap64_range (z : Z) : - 2 ^ 63 <= wrap64 z < 2 ^ 63.
Proof.
  unfold wrap64.
  pose proof (Z.mod_pos_bound (z + 2 ^ 63) (2 ^ 64) ltac:(lia)) as H.
  change (2 ^ 64) with (2 * 2 ^ 63) in *. lia.
Qed.

Lemma wrap64_small (z : Z) : - 2 ^ 63 <= z < 2 ^ 63 -> wrap64 z = z.
Proof.
  intros H. unfold wrap64. rewrite Z.mod_small; [lia|].
  change (2 ^ 64) with (2 * 2 ^ 63). lia.
Qed.

Lemma wrap64_add_l (a b : Z) : wrap64 (wrap64 a + b) = wrap64 (a + b).
Proof.
  unfold wrap64 at 2.
  rewrite (Z.mod_eq (a + 2 ^ 63) (2 ^ 64)) by lia.
  unfold wrap64. f_equal.
  replace (a + 2 ^ 63 - 2 ^ 64 * ((a + 2 ^ 63) / 2 ^ 64) - 2 ^ 63 + b + 2 ^ 63)
    with (a + b + 2 ^ 63 + (- ((a + 2 ^ 63) / 2 ^ 64)) * 2 ^ 64) by ring.
  apply Z_mod_plus_full.
Qed.

Lemma int64_sum_from (l : list Z) (a : Z) :
  fold_left (fun acc x => wrap64 (acc + x)) l (wrap64 a) = wrap64 (a + Zsum l).
Proof.
  revert a. induction l as [|x l IH]; intros a; simpl.
  - now rewrite Z.add_0_r.
  - rewrite wrap64_add_l, IH. f_equal. ring.
Qed.

(** An int64 sum is the exact sum reduced to the int64 range. *)
Lemma int64_sum_spec (l : list Z) : int64_sum l = wrap64 (Zsum l).
Proof.
  unfold int64_sum. change 0 with (wrap64 0) at 1. now rewrite int64_sum_from.
Qed.

Lemma int64_sum_exact (l : list Z) :
  - 2 ^ 63 <= Zsum l < 2 ^ 63 -> int64_sum l = Zsum l.
Proof. intros H. rewrite int64_sum_spec. now apply wrap64_small. Qed.

(** ** The filter *)

Lemma equals_spec (v : string) (choice : option string) :
  equals v choice = true <-> choice = Some v.
Proof.
  destruct choice as [s|]; simpl; [|split; discriminate].
  rewrite String.eqb_eq. split; congruence.
Qed.

Lemma selected_spec (st so pr : option string) (r : SalesRecord) :
  selected st so pr r = true <->
  st = Some (state r) /\ so = Some (store_id r) /\ pr = Some (product_id r).
Proof.
  unfold selected. rewrite !andb_true_iff, !equals_spec. tauto.
Qed.

Lemma count_occ_filter {A} (dec : forall x y : A, {x = y} + {x <> y})
      (f : A -> bool) (l : list A) (x : A) :
  count_occ dec (filter f l) x = if f x then count_occ dec l x else 0%nat.
Proof.
  induction l as [|a l IH]; simpl.
  - now destruct (f x).
  - destruct (f a) eqn:Fa; simpl; destruct (dec a x) as [E|Hn];
      rewrite IH; try subst a; try rewrite Fa; reflexivity.
Qed.

Lemma load_data_index (csv : list SalesRecord) (start : nat) :
  map fst (combine (seq start (List.length csv)) csv)
  = seq start (List.length csv).
Proof.
  revert start. induction csv as [|r csv IH]; intros start; simpl; auto.
  now rewrite IH.
Qed.

Lemma load_data_index_NoDup (csv : list SalesRecord) :
  NoDup (map fst (load_data csv)).
Proof. unfold load_data. rewrite load_data_index. apply seq_NoDup. Qed.

Lemma load_data_NoDup (csv : list SalesRecord) : NoDup (load_data csv).
Proof. eapply NoDup_map_inv, load_data_index_NoDup. Qed.

(** C1.  The filter returns exactly the rows whose state, store and product
    equal the selection: every returned row is a row of the table and
    satisfies the three equalities; each row occurs in the result as often
    as in the table when it satisfies them and not at all otherwise; and in
    a loaded table, where a row is identified by its index label, every
    matching row appears exactly once. *)
Theorem C1_filter_exact (csv : list SalesRecord) (st so pr : string) :
  let T := load_data csv in
  let F := filtered_df T (Some st) (Some so) (Some pr) in
  (forall ir, In ir F ->
     In ir T /\ state (snd ir) = st /\ store_id (snd ir) = so
     /\ product_id (snd ir) = pr)
  /\ (forall ir,
        count_occ indexed_eq_dec F ir
        = if selected (Some st) (Some so) (Some pr) (snd ir)
          then count_occ indexed_eq_dec T ir else 0%nat)
  /\ (forall ir, In ir T -> state (snd ir) = st -> store_id (snd ir) = so ->
        product_id (snd ir) = pr ->
        count_occ indexed_eq_dec F ir = 1%nat)
  /\ NoDup (map fst F).
Proof.
  intros T F.
  assert (Hsel : forall r, selected (Some st) (Some so) (Some pr) r = true <->
                           state r = st /\ store_id r = so /\ product_id r = pr).
  { intros r. rewrite selected_spec. intuition congruence. }
  split.
  { intros ir H. apply filter_In in H as [Hin H]. apply Hsel in H. tauto. }
  split.
  { intros ir. unfold F, filtered_df. now rewrite count_occ_filter. }
  split.
  { intros ir Hin H1 H2 H3. unfold F, filtered_df.
    rewrite count_occ_filter.
    assert (E : selected (Some st) (Some so) (Some pr) (snd ir) = true)
      by now apply Hsel.
    rewrite E. apply NoDup_count_occ'; [apply load_data_NoDup | assumption]. }
  unfold F, filtered_df.
  pose proof (load_data_index_NoDup csv) as Hnd. fold T in Hnd.
  clear F. induction T as [|a T IH]; simpl; [constructor|].
  inversion Hnd as [|? ? Hnotin Hnd']; subst.
  destruct (selected (Some st) (Some so) (Some pr) (snd a)); simpl; auto.
  constructor; auto.
  intros Hin. apply Hnotin. apply in_map_iff in Hin as [x [Hx Hin]].
  apply filter_In in Hin as [Hin _]. apply in_map_iff. eauto.
Qed.

(** ** Selections and the latest row *)

Lemma string_eqb_spec (x y : string) : String.eqb x y = true <-> x = y.
Proof. apply String.eqb_eq. Qed.

Lemma product_options_spec (raw_df : DataFrame) (st so : option string)
      (pr : string) :
  In pr (product_options raw_df st so) <->
  exists ir, In ir raw_df /\ st = Some (state (snd ir))
             /\ so = Some (store_id (snd ir)) /\ product_id (snd ir) = pr.
Proof.
  unfold product_options, products, sorted_strings, col.
  rewrite sort_by_In, (unique_In _ string_eqb_spec), in_map_iff.
  split.
  - intros [ir [Hp Hin]]. apply filter_In in Hin as [Hin Hm].
    apply andb_true_iff in Hm as [H1 H2].
    apply equals_spec in H1, H2. eauto.
  - intros [ir [Hin [H1 [H2 Hp]]]]. exists ir. split; auto.
    apply filter_In. split; auto.
    apply andb_true_iff. now rewrite !equals_spec.
Qed.

Lemma store_options_spec (raw_df : DataFrame) (st : option string)
      (so : string) :
  In so (store_options raw_df st) <->
  exists ir, In ir raw_df /\ st = Some (state (snd ir))
             /\ store_id (snd ir) = so.
Proof.
  unfold store_options, stores, sorted_strings, col.
  rewrite sort_by_In, (unique_In _ string_eqb_spec), in_map_iff.
  split.
  - intros [ir [Hp Hin]]. apply filter_In in Hin as [Hin Hm].
    apply equals_spec in Hm. eauto.
  - intros [ir [Hin [H1 H2]]]. exists ir. split; auto.
    apply filter_In. split; auto. now apply equals_spec.
Qed.

Lemma state_options_spec (raw_df : DataFrame) (st : string) :
  In st (state_options raw_df) <->
  exists ir, In ir raw_df /\ state (snd ir) = st.
Proof.
  unfold state_options, sorted_strings, col.
  rewrite sort_by_In, (unique_In _ string_eqb_spec), in_map_iff.
  split; intros [ir H]; exists ir; tauto.
Qed.

Lemma selectbox_In (options : list string) (pick : nat) (v : string) :
  selectbox options pick = Some v -> In v options.
Proof.
  destruct options as [|o l]; [discriminate|].
  unfold selectbox. intros H.
  assert (E : v = nth pick (o :: l) o) by congruence.
  destruct (nth_in_or_default pick (o :: l) o) as [Hn | Hn].
  - now rewrite E.
  - rewrite E, Hn. now left.
Qed.

Lemma selectbox_some (options : list string) (pick : nat) (v : string) :
  In v options -> exists w, selectbox options pick = Some w.
Proof. destruct options; [contradiction|]. simpl. eauto. Qed.

(** Whatever the user picks, the select boxes of a non-empty table yield a
    selection that some row of the table matches. *)
Lemma selectboxes_match_a_row (raw_df : DataFrame) (i j k : nat) :
  raw_df <> [] ->
  let st := selectbox (state_options raw_df) i in
  let so := selectbox (store_options raw_df st) j in
  let pr := selectbox (product_options raw_df st so) k in
  filtered_df raw_df st so pr <> [].
Proof.
  intros Hne st so pr.
  destruct raw_df as [|ir0 raw']; [congruence|].
  set (raw_df := ir0 :: raw') in *.
  destruct (selectbox_some (state_options raw_df) i (state (snd ir0)))
    as [s Hs].
  { apply state_options_spec. exists ir0. split; [now left | reflexivity]. }
  pose proof (selectbox_In _ _ _ Hs) as Hs'.
  apply state_options_spec in Hs' as [ir1 [Hin1 E1]].
  fold st in Hs.
  destruct (selectbox_some (store_options raw_df st) j (store_id (snd ir1)))
    as [o Ho].
  { apply store_options_spec. exists ir1. rewrite Hs, E1. auto. }
  pose proof (selectbox_In _ _ _ Ho) as Ho'.
  apply store_options_spec in Ho' as [ir2 [Hin2 [E2 E2']]].
  fold so in Ho.
  destruct (selectbox_some (product_options raw_df st so) k
                           (product_id (snd ir2))) as [q Hq].
  { apply product_options_spec. exists ir2. rewrite Ho, E2'. auto. }
  pose proof (selectbox_In _ _ _ Hq) as Hq'.
  apply product_options_spec in Hq' as [ir3 [Hin3 [E3 [E3' E3'']]]].
  fold pr in Hq.
  assert (Hf : In ir3 (filtered_df raw_df st so pr)).
  { apply filter_In. split; [assumption|].
    apply selected_spec. rewrite Hq, E3''. auto. }
  intros E. rewrite E in Hf. contradiction.
Qed.

Lemma iloc_last_nonempty {A} (l : list A) :
  l <> [] -> exists a, iloc_last l = inr a /\ In a l.
Proof.
  intros Hl. unfold iloc_last.
  destruct (rev l) as [|a l'] eqn:E.
  - apply (f_equal (@rev A)) in E. rewrite rev_involutive in E. contradiction.
  - exists a. split; auto. apply in_rev. rewrite E. now left.
Qed.

Lemma latest_nonempty (filtered : DataFrame) :
  filtered <> [] ->
  exists ir, latest filtered = inr (snd ir) /\ In ir filtered.
Proof.
  intros Hne. unfold latest.
  destruct (iloc_last_nonempty (sort_values_date filtered)) as [ir [E Hin]].
  - intros E. apply Hne. apply Permutation_nil.
    rewrite <- E. unfold sort_values_date. apply sort_by_perm.
  - exists ir. rewrite E. split; auto.
    unfold sort_values_date in Hin. now apply sort_by_In in Hin.
Qed.

Lemma latest_empty : latest [] = inl IndexError.
Proof. reflexivity. Qed.

(** The row that [latest] returns has the greatest date of the frame. *)
Lemma latest_is_max (filtered : DataFrame) (r : SalesRecord) :
  latest filtered = inr r ->
  forall ir, In ir filtered -> date (snd ir) <= date r.
Proof.
  unfold latest, iloc_last, sort_values_date.
  set (leb := fun a b : nat * SalesRecord => date (snd a) <=? date (snd b)).
  pose proof (sort_by_strongly_sorted leb) as Hs.
  assert (Htot : forall a b, leb a b = true \/ leb b a = true).
  { intros a b. unfold leb. rewrite !Z.leb_le. lia. }
  assert (Htr : forall a b c, leb a b = true -> leb b c = true -> leb a c = true).
  { intros a b c. unfold leb. rewrite !Z.leb_le. lia. }
  specialize (Hs Htot Htr filtered).
  destruct (rev (sort_by leb filtered)) as [|x l'] eqn:E; [discriminate|].
  intros H ir Hin. injection H as <-.
  apply (sort_by_In leb) in Hin.
  apply (f_equal (@rev _)) in E. rewrite rev_involutive in E. simpl in E.
  rewrite E in Hs, Hin. clear E.
  apply in_app_or in Hin as [Hin | [<- | []]]; [|lia].
  revert Hs Hin. generalize (rev l'). intros l Hs Hin.
  induction l as [|a l IH]; [contradiction|].
  simpl in Hs. inversion Hs as [|? ? Hs' Hall]; subst.
  destruct Hin as [<- | Hin]; auto.
  rewrite Forall_forall in Hall.
  specialize (Hall x). unfold leb in Hall. apply Z.leb_le, Hall.
  apply in_or_app. right. now left.
Qed.

(** C10.  Under a selection that respects the hierarchy of the three select
    boxes (the state is one of the table's states, the store one of that
    state's stores, the product one of that state and store's products) the
    filtered table is non-empty, so the latest-row lookup returns a row of
    it and the run does not end with the out-of-bounds error of that lookup:
    the latest-sales box is rendered. *)
Theorem C10_hierarchical_selection_nonempty
        (fc : Forecaster) (raw_df : DataFrame) (st so pr : string) :
  In st (state_options raw_df) ->
  In so (store_options raw_df (Some st)) ->
  In pr (product_options raw_df (Some st) (Some so)) ->
  filtered_df raw_df (Some st) (Some so) (Some pr) <> []
  /\ (exists ir, In ir (filtered_df raw_df (Some st) (Some so) (Some pr))
                 /\ latest (filtered_df raw_df (Some st) (Some so) (Some pr))
                    = inr (snd ir))
  /\ In VLatestSales
        (rendered (run (dashboard fc raw_df (Some st) (Some so) (Some pr)))).
Proof.
  intros _ _ Hpr.
  apply product_options_spec in Hpr as [ir [Hin [H1 [H2 H3]]]].
  assert (Hf : In ir (filtered_df raw_df (Some st) (Some so) (Some pr))).
  { apply filter_In. split; auto. apply selected_spec. now rewrite H3. }
  assert (Hne : filtered_df raw_df (Some st) (Some so) (Some pr) <> []).
  { intros E. rewrite E in Hf. contradiction. }
  split; [assumption|].
  destruct (latest_nonempty _ Hne) as [jr [E Hj]].
  split; [eauto|].
  unfold run, dashboard, bind, lift, render, rendered. rewrite E. simpl.
  destruct (forecast_merged fc _); simpl; [now left|].
  destruct (py_max _); simpl; now left.
Qed.

Lemma C10_witness :
  In "CA" (state_options sample_raw)
  /\ In "S1" (store_options sample_raw (Some "CA"))
  /\ In "P1" (product_options sample_raw (Some "CA") (Some "S1"))
  /\ filtered_df sample_raw (Some "CA") (Some "S1") (Some "P1") <> []
  /\ (exists ir, In ir (filtered_df sample_raw (Some "CA") (Some "S1") (Some "P1"))
                 /\ latest (filtered_df sample_raw (Some "CA") (Some "S1") (Some "P1"))
                    = inr (snd ir))
  /\ In VLatestSales
        (rendered (run (dashboard naive_forecaster sample_raw
                                  (Some "CA") (Some "S1") (Some "P1")))).
Proof.
  assert (H1 : In "CA" (state_options sample_raw)) by (vm_compute; auto).
  assert (H2 : In "S1" (store_options sample_raw (Some "CA")))
    by (vm_compute; auto).
  assert (H3 : In "P1" (product_options sample_raw (Some "CA") (Some "S1")))
    by (vm_compute; auto).
  repeat (split; [assumption|]).
  exact (C10_hierarchical_selection_nonempty naive_forecaster sample_raw
           "CA" "S1" "P1" H1 H2 H3).
Defined.

(** For a non-empty table without missing fields, as modelled, every run of
    the whole script gets past the latest-row lookup, whatever the user
    picks. *)
Lemma script_latest_in_bounds (fc : Forecaster) (csv : list SalesRecord)
      (i j k : nat) :
  csv <> [] -> In VLatestSales (rendered (run (script fc csv i j k))).
Proof.
  intros Hne. unfold script.
  assert (Hraw : load_data csv <> []).
  { destruct csv; [congruence | discriminate]. }
  pose proof (selectboxes_match_a_row (load_data csv) i j k Hraw) as Hf.
  cbv zeta in Hf.
  destruct (latest_nonempty _ Hf) as [jr [E Hj]].
  unfold run, dashboard, bind, lift, render, rendered. rewrite E. simpl.
  destruct (forecast_merged fc _); simpl; [now left|].
  destruct (py_max _); simpl; now left.
Qed.

(** C5 (as stated, refuted).  A selection with no matching row, and the
    selection the select boxes yield on an empty table: in both runs the
    filter yields zero rows and the run ends with an uncaught IndexError. *)
Lemma C5_counterexample :
  (filtered_df sample_raw (Some "CA") (Some "S2") (Some "P1") = []
   /\ latest (filtered_df sample_raw (Some "CA") (Some "S2") (Some "P1"))
      = inl IndexError
   /\ uncaught (run (dashboard naive_forecaster sample_raw
                               (Some "CA") (Some "S2") (Some "P1")))
      = Some IndexError)
  /\ (filtered_df (load_data []) None None None = []
      /\ run (script naive_forecaster [] 0 0 0) = (inl IndexError, [])).
Proof. vm_compute. auto. Qed.

(** C5 (amended).  When the filter yields zero rows, the latest-row lookup
    raises IndexError; nothing catches it, so the run ends there with
    nothing rendered. *)
Theorem C5_empty_selection_raises_IndexError
        (fc : Forecaster) (raw_df : DataFrame) (st so pr : option string) :
  filtered_df raw_df st so pr = [] ->
  latest (filtered_df raw_df st so pr) = inl IndexError
  /\ run (dashboard fc raw_df st so pr) = (inl IndexError, []).
Proof.
  intros E. unfold run, dashboard, bind, lift. rewrite E. split; reflexivity.
Qed.

Lemma C5_witness :
  filtered_df sample_raw (Some "CA") (Some "S2") (Some "P1") = []
  /\ latest (filtered_df sample_raw (Some "CA") (Some "S2") (Some "P1"))
     = inl IndexError
  /\ run (dashboard naive_forecaster sample_raw
                    (Some "CA") (Some "S2") (Some "P1"))
     = (inl IndexError, []).
Proof.
  split; [reflexivity|].
  apply (C5_empty_selection_raises_IndexError naive_forecaster sample_raw
           (Some "CA") (Some "S2") (Some "P1")).
  reflexivity.
Defined.

(** C6 (as stated, refuted).  The fit raises on a non-empty selection: the
    run ends with that exception and neither aggregation view is rendered. *)
Lemma C6_counterexample :
  fit failing_forecaster (df_prophet (filtered_df sample_raw (Some "CA") (Some "S1") (Some "P1")))
  = inl ProphetError
  /\ uncaught (run (dashboard failing_forecaster sample_raw (Some "CA") (Some "S1") (Some "P1")))
     = Some ProphetError
  /\ ~ In VTop5
       (rendered (run (dashboard failing_forecaster sample_raw (Some "CA") (Some "S1") (Some "P1"))))
  /\ ~ In VStoreSales
       (rendered (run (dashboard failing_forecaster sample_raw (Some "CA") (Some "S1") (Some "P1")))).
Proof. vm_compute. intuition discriminate. Qed.

(** C6 (amended).  When the fit or the prediction raises on a non-empty
    filtered table, nothing catches the exception and the run ends with it:
    the four metrics, rendered before the forecast, stay on the page, and
    nothing after them is rendered (no forecast chart, no top-5 chart, no
    store chart, no forecast table). *)
Theorem C6_forecast_failure_ends_run
        (fc : Forecaster) (raw_df : DataFrame) (st so pr : option string)
        (e : PyExn) :
  filtered_df raw_df st so pr <> [] ->
  forecast_raises fc (df_prophet (filtered_df raw_df st so pr)) e ->
  uncaught (run (dashboard fc raw_df st so pr)) = Some e
  /\ rendered (run (dashboard fc raw_df st so pr))
     = [VLatestSales; VAvgMargin; VAvgOutOfStock; VAvgDailySales].
Proof.
  intros Hne Hraise.
  assert (Hf : forecast_merged fc (df_prophet (filtered_df raw_df st so pr))
               = inl e).
  { unfold forecast_merged.
    destruct Hraise as [-> | [model [future [-> [-> ->]]]]]; reflexivity. }
  destruct (latest_nonempty _ Hne) as [ir [E _]].
  unfold run, dashboard, bind, lift, render, rendered, uncaught.
  rewrite E. simpl. rewrite Hf. simpl. split; reflexivity.
Qed.

Lemma C6_witness :
  filtered_df sample_raw (Some "CA") (Some "S1") (Some "P1") <> []
  /\ forecast_raises failing_forecaster
       (df_prophet (filtered_df sample_raw (Some "CA") (Some "S1") (Some "P1")))
       ProphetError
  /\ uncaught (run (dashboard failing_forecaster sample_raw
                              (Some "CA") (Some "S1") (Some "P1")))
     = Some ProphetError
  /\ rendered (run (dashboard failing_forecaster sample_raw
                              (Some "CA") (Some "S1") (Some "P1")))
     = [VLatestSales; VAvgMargin; VAvgOutOfStock; VAvgDailySales].
Proof.
  assert (H1 : filtered_df sample_raw (Some "CA") (Some "S1") (Some "P1") <> [])
    by (vm_compute; discriminate).
  assert (H2 : forecast_raises failing_forecaster
                 (df_prophet (filtered_df sample_raw
                                (Some "CA") (Some "S1") (Some "P1")))
                 ProphetError) by (left; vm_compute; reflexivity).
  repeat (split; [assumption|]).
  exact (C6_forecast_failure_ends_run failing_forecaster sample_raw
           (Some "CA") (Some "S1") (Some "P1") ProphetError H1 H2).
Defined.

(** C9.  The worked scenario: three rows of one state, store and product on
    2024-01-01, 2024-01-02 and 2024-01-03 with sales 10, 20 and 30.  The
    selection keeps all three; the average of sales is 20; the latest row is
    the one of 2024-01-03, with sales 30; and the series handed to the
    forecaster is (2024-01-01, 10), (2024-01-02, 20), (2024-01-03, 30), in
    ascending date order. *)
Theorem C9_three_row_scenario (mg1 os1 mg2 os2 mg3 os3 : Q) :
  let filtered :=
    filtered_df (load_data (scenario_rows mg1 os1 mg2 os2 mg3 os3))
                (Some "CA") (Some "S1") (Some "P1") in
  List.length filtered = 3%nat
  /\ (exists q, avg_sales filtered = Some q /\ (q == 20)%Q)
  /\ (exists r, latest filtered = inr r /\ sales r = 30
                /\ date r = ymd 2024 1 3)
  /\ df_prophet filtered
     = [ [("ds", CDate (ymd 2024 1 1)); ("y", CInt 10)];
         [("ds", CDate (ymd 2024 1 2)); ("y", CInt 20)];
         [("ds", CDate (ymd 2024 1 3)); ("y", CInt 30)] ]
  /\ StronglySorted Z.lt (date_column "ds" (df_prophet filtered)).
Proof.
  intros filtered. split; [reflexivity|].
  split.
  { eexists. split; [reflexivity|]. vm_compute. reflexivity. }
  split.
  { eexists. split; [reflexivity|]. split; reflexivity. }
  split; [reflexivity|].
  vm_compute. repeat constructor.
Qed.

(** ** Aggregations *)

Lemma groupby_sum_keys (key : SalesRecord -> string) (df : DataFrame) :
  map fst (groupby_sum key df)
  = sorted_strings (unique String.eqb (col key df)).
Proof.
  unfold groupby_sum. rewrite map_map. simpl. apply map_id.
Qed.

Lemma groupby_sum_In (key : SalesRecord -> string) (df : DataFrame)
      (k : string) (t : Z) :
  In (k, t) (groupby_sum key df) <->
  In k (col key df) /\ t = group_total key df k.
Proof.
  unfold groupby_sum, sorted_strings. rewrite in_map_iff. split.
  - intros [k' [E Hin]]. injection E as -> <-.
    rewrite sort_by_In, (unique_In _ string_eqb_spec) in Hin.
    split; [assumption | reflexivity].
  - intros [Hin ->]. exists k. split; auto.
    apply sort_by_In. now apply (unique_In _ string_eqb_spec).
Qed.

Lemma groupby_sum_keys_NoDup (key : SalesRecord -> string) (df : DataFrame) :
  NoDup (map fst (groupby_sum key df)).
Proof.
  rewrite groupby_sum_keys. unfold sorted_strings.
  eapply Permutation_NoDup.
  - apply Permutation_sym, sort_by_perm.
  - apply (unique_NoDup _ string_eqb_spec).
Qed.

Lemma In_firstn {A} (n : nat) (l : list A) (x : A) :
  In x (firstn n l) -> In x l.
Proof.
  intros H. rewrite <- (firstn_skipn n l). apply in_or_app. now left.
Qed.

Lemma NoDup_firstn {A} (n : nat) (l : list A) : NoDup l -> NoDup (firstn n l).
Proof.
  intros H. rewrite <- (firstn_skipn n l) in H. now apply NoDup_app_remove_r in H.
Qed.

Lemma StronglySorted_app {A} (R : A -> A -> Prop) (l1 l2 : list A) :
  StronglySorted R (l1 ++ l2) ->
  StronglySorted R l1 /\ forall a b, In a l1 -> In b l2 -> R a b.
Proof.
  induction l1 as [|x l1 IH]; simpl; intros H.
  - split; [constructor | contradiction].
  - apply StronglySorted_inv in H as [Hs Hall].
    destruct (IH Hs) as [Hs1 Hc]. rewrite Forall_forall in Hall.
    split.
    + constructor; auto. apply Forall_forall. intros y Hy.
      apply Hall, in_or_app. now left.
    + intros a b [<- | Ha] Hb; auto. apply Hall, in_or_app. now right.
Qed.

Lemma nlargest_sorted_all (s : list (string * Z)) :
  StronglySorted (fun a b => snd b <= snd a)
                 (sort_by (fun a b => snd b <=? snd a) s).
Proof.
  assert (H : StronglySorted
                (fun a b : string * Z => (snd b <=? snd a) = true)
                (sort_by (fun a b => snd b <=? snd a) s)).
  { apply sort_by_strongly_sorted.
    - intros a b. rewrite !Z.leb_le. lia.
    - intros a b c. rewrite !Z.leb_le. lia. }
  induction H as [|a l _ IH Hall]; constructor; auto.
  eapply Forall_impl; [|exact Hall]. simpl. intros b Hb. now apply Z.leb_le.
Qed.

Lemma topNProducts_length (raw_df : DataFrame) (n : nat) :
  List.length (topNProducts raw_df n)
  = Nat.min n (List.length (unique String.eqb (col product_id raw_df))).
Proof.
  unfold topNProducts, nlargest.
  rewrite length_firstn, sort_by_length. unfold groupby_sum, sorted_strings.
  now rewrite length_map, sort_by_length.
Qed.

(** C7 (as stated, refuted).  Product P1 has the two rows 9223372036854775807
    and 1: its exact total is 2^63, but the int64 sum wraps around and the
    chart lists -2^63 for it, below product P2 whose total is 5. *)
Lemma C7_counterexample :
  topNProducts overflow_raw 5 = [("P2", 5); ("P1", -9223372036854775808)]
  /\ Zsum (col sales (group_rows product_id overflow_raw "P1"))
     = 9223372036854775808
  /\ Zsum (col sales (group_rows product_id overflow_raw "P2")) = 5
  /\ ~ (forall p t, In (p, t) (topNProducts overflow_raw 5) ->
                    t = Zsum (col sales (group_rows product_id overflow_raw p))).
Proof.
  split; [vm_compute; reflexivity|].
  split; [vm_compute; reflexivity|].
  split; [vm_compute; reflexivity|].
  intros H. specialize (H "P1" (-9223372036854775808)).
  assert (Hin : In ("P1", -9223372036854775808) (topNProducts overflow_raw 5))
    by (vm_compute; auto).
  specialize (H Hin). vm_compute in H. discriminate.
Qed.

(** C7 (amended).  [topNProducts] lists min(n, number of distinct products)
    entries, so at most [n], in descending order of their totals.  Every
    entry is a product of the table with the int64 sum of the sales of all
    the table's rows of that product: the exact sum reduced to the int64
    range, hence the exact sum whenever that fits in int64.  No product is
    listed twice; a product left out has a total no greater than any listed
    one; and every product is listed when the table has at most [n]. *)
Theorem C7_topNProducts (raw_df : DataFrame) (n : nat) :
  List.length (topNProducts raw_df n)
  = Nat.min n (List.length (unique String.eqb (col product_id raw_df)))
  /\ (List.length (topNProducts raw_df n) <= n)%nat
  /\ StronglySorted (fun a b => snd b <= snd a) (topNProducts raw_df n)
  /\ (forall p t, In (p, t) (topNProducts raw_df n) ->
        In p (col product_id raw_df)
        /\ t = int64_sum (col sales (group_rows product_id raw_df p))
        /\ t = wrap64 (Zsum (col sales (group_rows product_id raw_df p)))
        /\ (- 2 ^ 63 <= Zsum (col sales (group_rows product_id raw_df p))
                       < 2 ^ 63 ->
            t = Zsum (col sales (group_rows product_id raw_df p))))
  /\ NoDup (map fst (topNProducts raw_df n))
  /\ (forall p, In p (col product_id raw_df) ->
        ~ In p (map fst (topNProducts raw_df n)) ->
        forall q t, In (q, t) (topNProducts raw_df n) ->
                    group_total product_id raw_df p <= t)
  /\ (forall p, In p (col product_id raw_df) ->
        (List.length (unique String.eqb (col product_id raw_df)) <= n)%nat ->
        In p (map fst (topNProducts raw_df n))).
Proof.
  split; [apply topNProducts_length|].
  unfold topNProducts, nlargest.
  set (leb := fun a b : string * Z => snd b <=? snd a).
  set (g := groupby_sum product_id raw_df).
  pose proof (nlargest_sorted_all g) as Hs. fold leb in Hs.
  rewrite <- (firstn_skipn n (sort_by leb g)) in Hs.
  apply StronglySorted_app in Hs as [Hs1 Hcross].
  split; [apply firstn_le_length|].
  split; [exact Hs1|].
  split.
  { intros p t Hin. apply In_firstn, sort_by_In in Hin.
    apply groupby_sum_In in Hin as [Hp ->]. unfold group_total.
    split; [assumption|]. split; [reflexivity|].
    split; [apply int64_sum_spec | apply int64_sum_exact]. }
  split.
  { rewrite <- firstn_map. apply NoDup_firstn.
    eapply Permutation_NoDup; [|apply (groupby_sum_keys_NoDup product_id raw_df)].
    apply Permutation_map, Permutation_sym, sort_by_perm. }
  split.
  { intros p Hp Hout q t Hq.
    assert (Hg : In (p, group_total product_id raw_df p) (sort_by leb g)).
    { apply sort_by_In. now apply groupby_sum_In. }
    rewrite <- (firstn_skipn n (sort_by leb g)) in Hg.
    apply in_app_or in Hg as [Hg | Hg].
    - exfalso. apply Hout. apply in_map_iff.
      now exists (p, group_total product_id raw_df p).
    - exact (Hcross _ _ Hq Hg). }
  intros p Hp Hn. rewrite firstn_all2.
  - apply in_map_iff. exists (p, group_total product_id raw_df p).
    split; [reflexivity|]. apply sort_by_In. now apply groupby_sum_In.
  - rewrite sort_by_length. unfold g, groupby_sum, sorted_strings.
    now rewrite length_map, sort_by_length.
Qed.

Lemma filter_filter {A} (f g : A -> bool) (l : list A) :
  filter f (filter g l) = filter (fun x => g x && f x) l.
Proof.
  induction l as [|a l IH]; simpl; auto.
  destruct (g a); simpl; [destruct (f a)|]; now rewrite IH.
Qed.

Lemma latest_date_spec (raw_df : DataFrame) (m : Z) :
  latest_date raw_df = Some m ->
  In m (col date raw_df) /\ forall ir, In ir raw_df -> date (snd ir) <= m.
Proof.
  intros H. apply Zmax_list_spec in H as [Hin Hle]. split; auto.
  intros ir Hir. apply Hle. unfold col. apply in_map_iff. eauto.
Qed.

Lemma trailing_window_In (raw_df : DataFrame) (w m : Z) (ir : nat * SalesRecord) :
  latest_date raw_df = Some m ->
  In ir (trailing_window raw_df w) <-> In ir raw_df /\ m - w <= date (snd ir).
Proof.
  intros H. unfold trailing_window. rewrite H, filter_In, Z.leb_le. tauto.
Qed.

(** C8 (as stated, refuted).  All three rows of the table lie inside the
    7-day window and belong to store S1; their sales add up to 2^63 + 5,
    but the int64 sum wraps around and the store's bar is negative. *)
Lemma C8_counterexample :
  trailing_window overflow_raw 7 = overflow_raw
  /\ storeSalesTrailingWindow overflow_raw 7 = [("S1", -9223372036854775803)]
  /\ Zsum (col sales (group_rows store_id (trailing_window overflow_raw 7) "S1"))
     = 9223372036854775813.
Proof. repeat split; vm_compute; reflexivity. Qed.

(** C8 (amended).  On a non-empty table the store view keeps the rows dated
    no earlier than the table's maximum date minus [windowDays], and lists
    each store of the kept rows once, with the int64 sum of the sales of
    the kept rows of that store (their exact sum whenever it fits in
    int64).  With a window of 7 days and a maximum date of 2024-01-10, a
    row dated before 2024-01-03 is dropped and every kept row is dated
    2024-01-03 or later. *)
Theorem C8_storeSalesTrailingWindow (raw_df : DataFrame) (windowDays : Z) :
  raw_df <> [] ->
  exists m,
    latest_date raw_df = Some m
    /\ In m (col date raw_df)
    /\ (forall ir, In ir raw_df -> date (snd ir) <= m)
    /\ (forall ir, In ir (trailing_window raw_df windowDays) <->
                   In ir raw_df /\ m - windowDays <= date (snd ir))
    /\ (forall s t,
          In (s, t) (storeSalesTrailingWindow raw_df windowDays) <->
          (exists ir, In ir raw_df /\ m - windowDays <= date (snd ir)
                      /\ store_id (snd ir) = s)
          /\ t = int64_sum
                   (col sales
                      (filter (fun ir => (m - windowDays <=? date (snd ir))
                                         && String.eqb (store_id (snd ir)) s)
                              raw_df)))
    /\ (forall s t,
          In (s, t) (storeSalesTrailingWindow raw_df windowDays) ->
          - 2 ^ 63
          <= Zsum (col sales
                     (filter (fun ir => (m - windowDays <=? date (snd ir))
                                        && String.eqb (store_id (snd ir)) s)
                             raw_df)) < 2 ^ 63 ->
          t = Zsum (col sales
                      (filter (fun ir => (m - windowDays <=? date (snd ir))
                                         && String.eqb (store_id (snd ir)) s)
                              raw_df)))
    /\ NoDup (map fst (storeSalesTrailingWindow raw_df windowDays))
    /\ (windowDays = 7 -> m = ymd 2024 1 10 ->
        forall ir, In ir raw_df ->
          (date (snd ir) < ymd 2024 1 3 ->
           ~ In ir (trailing_window raw_df windowDays))
          /\ (In ir (trailing_window raw_df windowDays) ->
              ymd 2024 1 3 <= date (snd ir))).
Proof.
  intros Hne.
  destruct (Zmax_list_some (col date raw_df)) as [m Hm].
  { destruct raw_df; [congruence | discriminate]. }
  exists m. fold (latest_date raw_df) in Hm.
  destruct (latest_date_spec _ _ Hm) as [Hin Hle].
  split; [assumption|]. split; [assumption|]. split; [assumption|].
  split; [intros ir; now apply trailing_window_In|].
  assert (Hbars : forall s t,
            In (s, t) (storeSalesTrailingWindow raw_df windowDays) <->
            (exists ir, In ir raw_df /\ m - windowDays <= date (snd ir)
                        /\ store_id (snd ir) = s)
            /\ t = int64_sum
                     (col sales
                        (filter (fun ir => (m - windowDays <=? date (snd ir))
                                           && String.eqb (store_id (snd ir)) s)
                                raw_df))).
  { intros s t. unfold storeSalesTrailingWindow.
    rewrite groupby_sum_In. unfold group_total, group_rows, col at 1.
    rewrite in_map_iff.
    assert (E : filter (fun ir => String.eqb (store_id (snd ir)) s)
                       (trailing_window raw_df windowDays)
                = filter (fun ir => (m - windowDays <=? date (snd ir))
                                    && String.eqb (store_id (snd ir)) s) raw_df).
    { unfold trailing_window. rewrite Hm. apply filter_filter. }
    rewrite E. split.
    - intros [[ir [Hs Hir]] Ht]. split; [|assumption].
      apply (trailing_window_In _ _ _ _ Hm) in Hir as [Hir Hd]. eauto.
    - intros [[ir [Hir [Hd Hs]]] Ht]. split; [|assumption].
      exists ir. split; [assumption|].
      now apply (trailing_window_In _ _ _ _ Hm). }
  split; [exact Hbars|].
  split.
  { intros s t Hst Hfit. apply Hbars in Hst as [_ ->].
    now apply int64_sum_exact. }
  split; [apply groupby_sum_keys_NoDup|].
  intros -> -> ir Hir.
  assert (E : ymd 2024 1 10 - 7 = ymd 2024 1 3) by reflexivity.
  split.
  - intros Hd Hw. apply (trailing_window_In _ _ _ _ Hm) in Hw as [_ Hw]. lia.
  - intros Hw. apply (trailing_window_In _ _ _ _ Hm) in Hw as [_ Hw]. lia.
Qed.

Lemma C8_witness :
  sample_raw <> []
  /\ latest_date sample_raw = Some (ymd 2024 1 10)
  /\ storeSalesTrailingWindow sample_raw 7 = [("S1", 20); ("S2", 30); ("S3", 5)]
  /\ exists m, latest_date sample_raw = Some m
               /\ In m (col date sample_raw)
               /\ forall ir, In ir sample_raw -> date (snd ir) <= m.
Proof.
  assert (H : sample_raw <> []) by (vm_compute; discriminate).
  split; [assumption|]. split; [reflexivity|]. split; [reflexivity|].
  destruct (C8_storeSalesTrailingWindow sample_raw 7 H) as [m [H1 [H2 [H3 _]]]].
  exists m. auto.
Defined.

(** ** The forecast series *)

Lemma Z_eqb_spec (x y : Z) : (x =? y) = true <-> x = y.
Proof. apply Z.eqb_eq. Qed.

Lemma df_prophet_rows (filtered : DataFrame) :
  df_prophet filtered
  = map (fun ir => [("ds", CDate (date (snd ir))); ("y", CInt (sales (snd ir)))])
        filtered.
Proof. reflexivity. Qed.

Lemma df_prophet_dates (filtered : DataFrame) :
  date_column "ds" (df_prophet filtered) = col date filtered.
Proof.
  rewrite df_prophet_rows. unfold date_column, col.
  induction filtered as [|ir l IH]; simpl; [reflexivity | now rewrite IH].
Qed.

Lemma ds_row_dates (l : list Z) : date_column "ds" (map ds_row l) = l.
Proof.
  unfold date_column. induction l as [|d l IH]; simpl; [reflexivity | now rewrite IH].
Qed.

Lemma forecast_row_dates (yhat : Z -> Q) (l : list Z) :
  date_column "ds" (map (forecast_row yhat) l) = l.
Proof.
  unfold date_column. induction l as [|d l IH]; simpl; [reflexivity | now rewrite IH].
Qed.

Lemma filter_after (c : Z) (l : list nat) :
  (forall k, In k l -> (1 <= k)%nat) ->
  filter (fun d => c <? d) (map (fun k => c + Z.of_nat k) l)
  = map (fun k => c + Z.of_nat k) l.
Proof.
  induction l as [|k l IH]; intros H; simpl; [reflexivity|].
  replace (c <? c + Z.of_nat k) with true.
  - f_equal. apply IH. intros j Hj. apply H. now right.
  - symmetry. apply Z.ltb_lt. specialize (H k (or_introl eq_refl)). lia.
Qed.

(** The dates appended by [make_future_dataframe] are the [periods] days
    that follow the last history date. *)
Lemma future_dates_eq (last_date : Z) (periods : nat) :
  future_dates last_date periods
  = map (fun k => last_date + Z.of_nat k) (seq 1 periods).
Proof.
  unfold future_dates, date_range.
  rewrite Nat.add_1_r. cbn [seq map filter].
  replace (last_date <? last_date + Z.of_nat 0) with false
    by (symmetry; apply Z.ltb_ge; lia).
  rewrite filter_after.
  - apply firstn_all2. now rewrite length_map, length_seq.
  - intros k Hk. apply in_seq in Hk. lia.
Qed.

Lemma future_dates_In (last_date : Z) (periods : nat) (d : Z) :
  In d (future_dates last_date periods) <->
  last_date < d <= last_date + Z.of_nat periods.
Proof.
  rewrite future_dates_eq, in_map_iff. split.
  - intros [k [<- Hk]]. apply in_seq in Hk. lia.
  - intros Hd. exists (Z.to_nat (d - last_date)). split; [lia|].
    apply in_seq. lia.
Qed.

Lemma future_dates_sorted (last_date : Z) (periods : nat) :
  StronglySorted Z.lt (future_dates last_date periods).
Proof.
  rewrite future_dates_eq. generalize 1%nat as s.
  induction periods as [|n IH]; intros s; simpl; constructor; auto.
  apply Forall_forall. intros d Hd. apply in_map_iff in Hd as [k [<- Hk]].
  apply in_seq in Hk. lia.
Qed.

(** The history dates recorded by [fit]. *)
Lemma history_In (dates : list Z) (d : Z) :
  In d (sort_by Z.leb (unique Z.eqb dates)) <-> In d dates.
Proof. now rewrite sort_by_In, (unique_In _ Z_eqb_spec). Qed.

Lemma history_NoDup (dates : list Z) :
  NoDup (sort_by Z.leb (unique Z.eqb dates)).
Proof.
  eapply Permutation_NoDup.
  - apply Permutation_sym, sort_by_perm.
  - apply (unique_NoDup _ Z_eqb_spec).
Qed.

Lemma history_sorted (dates : list Z) :
  StronglySorted Z.lt (sort_by Z.leb (unique Z.eqb dates)).
Proof.
  pose proof (history_NoDup dates) as Hnd.
  assert (Hs : StronglySorted (fun a b => (a <=? b) = true)
                              (sort_by Z.leb (unique Z.eqb dates))).
  { apply sort_by_strongly_sorted.
    - intros a b. rewrite !Z.leb_le. lia.
    - intros a b c. rewrite !Z.leb_le. lia. }
  revert Hnd. induction Hs as [|a l _ IH Hall]; intros Hnd; constructor.
  - apply IH. now inversion Hnd.
  - inversion Hnd as [|? ? Hnotin _]; subst.
    rewrite Forall_forall in *. intros b Hb.
    specialize (Hall b Hb). apply Z.leb_le in Hall.
    assert (a <> b) by (intros ->; contradiction). lia.
Qed.

Lemma history_max (dates : list Z) :
  Zmax_list (sort_by Z.leb (unique Z.eqb dates)) = Zmax_list dates.
Proof. apply Zmax_list_ext. intros d. apply history_In. Qed.

Lemma StronglySorted_lt_app (l1 l2 : list Z) :
  StronglySorted Z.lt l1 -> StronglySorted Z.lt l2 ->
  (forall a b, In a l1 -> In b l2 -> a < b) ->
  StronglySorted Z.lt (l1 ++ l2).
Proof.
  intros H1 H2 Hc. induction H1 as [|a l _ IH Hall]; simpl; auto.
  constructor.
  - apply IH. intros x y Hx. apply Hc. now right.
  - apply Forall_app. split; auto.
    apply Forall_forall. intros b Hb. apply Hc; auto. now left.
Qed.

Lemma StronglySorted_lt_NoDup (l : list Z) : StronglySorted Z.lt l -> NoDup l.
Proof.
  induction 1 as [|a l _ IH Hall]; constructor; auto.
  intros Hin. rewrite Forall_forall in Hall. specialize (Hall a Hin). lia.
Qed.

(** ** The merge *)

Lemma key_matches_miss (yhat : Z -> Q) (d : Z) (l : list Z) :
  ~ In d l ->
  filter (key_matches "ds" (CDate d)) (map (forecast_row yhat) l) = [].
Proof.
  induction l as [|a l IH]; intros Hn; [reflexivity|].
  cbn [map filter].
  change (key_matches "ds" (CDate d) (forecast_row yhat a)) with (d =? a).
  destruct (d =? a) eqn:E.
  - apply Z.eqb_eq in E. exfalso. apply Hn. now left.
  - apply IH. intros H. apply Hn. now right.
Qed.

Lemma key_matches_hit (yhat : Z -> Q) (d : Z) (l : list Z) :
  NoDup l -> In d l ->
  filter (key_matches "ds" (CDate d)) (map (forecast_row yhat) l)
  = [forecast_row yhat d].
Proof.
  induction l as [|a l IH]; intros Hnd Hin; [contradiction|].
  inversion Hnd as [|? ? Hnotin Hnd']; subst.
  cbn [map filter].
  change (key_matches "ds" (CDate d) (forecast_row yhat a)) with (d =? a).
  destruct (d =? a) eqn:E.
  - apply Z.eqb_eq in E. subst a. now rewrite key_matches_miss.
  - apply Z.eqb_neq in E. destruct Hin as [-> | Hin]; [congruence|]. auto.
Qed.

(** Merging the extended dates with one forecast row per date gives one row
    per date, in the order of the extended dates, holding the date and the
    predicted value. *)
Lemma merged_rows (yhat : Z -> Q) (dates dates' : list Z) :
  NoDup dates' -> (forall d, In d dates -> In d dates') ->
  merged (map ds_row dates) (map (forecast_row yhat) dates')
  = map (forecast_row yhat) dates.
Proof.
  intros Hnd Hsub. unfold merged, merge.
  rewrite map_map.
  rewrite (map_ext (fun d => select ["ds"; "yhat"] (forecast_row yhat d))
                   (forecast_row yhat)) by reflexivity.
  induction dates as [|d l IH]; [reflexivity|].
  cbn [map flat_map].
  change (get "ds" (ds_row d)) with (Some (CDate d)).
  cbv beta iota.
  rewrite key_matches_hit; auto; [|apply Hsub; now left].
  cbn [map app].
  change (ds_row d ++ drop_column "ds" (forecast_row yhat d))
    with (forecast_row yhat d).
  f_equal. apply IH. intros x Hx. apply Hsub. now right.
Qed.

(** The extended dates: the history dates, then the days after the last. *)
Lemma extended_dates_sorted (dates : list Z) (c : Z) :
  Zmax_list dates = Some c ->
  StronglySorted Z.lt
    (sort_by Z.leb (unique Z.eqb dates) ++ future_dates c 30).
Proof.
  intros Hc. apply StronglySorted_lt_app.
  - apply history_sorted.
  - apply future_dates_sorted.
  - intros a b Ha Hb. rewrite history_In in Ha.
    apply Zmax_list_spec in Hc as [_ Hle]. specialize (Hle a Ha).
    rewrite future_dates_In in Hb. lia.
Qed.

Lemma df_prophet_length (filtered : DataFrame) :
  List.length (df_prophet filtered) = List.length filtered.
Proof. unfold df_prophet. apply length_map. Qed.

(** What a successful run of lines 70-74 returns. *)
Lemma forecast_merged_inv (fc : Forecaster) (filtered : DataFrame) (mrg : Frame) :
  forecast_merged fc (df_prophet filtered) = inr mrg ->
  exists c p yhat,
    cutoff (df_prophet filtered) = Some c
    /\ fit_params fc (df_prophet filtered) = inr p
    /\ predict_yhat fc p
         (map ds_row (sort_by Z.leb (unique Z.eqb (col date filtered))
                      ++ future_dates c 30)) = inr yhat
    /\ mrg = map (forecast_row yhat)
                 (sort_by Z.leb (unique Z.eqb (col date filtered))
                  ++ future_dates c 30).
Proof.
  unfold forecast_merged, fit, cutoff.
  destruct (List.length (df_prophet filtered) <? 2)%nat; [discriminate|].
  destruct (fit_params fc (df_prophet filtered)) as [e|p]; [discriminate|].
  unfold make_future_dataframe. cbn [history_dates].
  rewrite df_prophet_dates, history_max.
  destruct (Zmax_list (col date filtered)) as [c|] eqn:Hc; [|discriminate].
  unfold predict. cbn [params].
  destruct (predict_yhat fc p _) as [e|yhat] eqn:Hy; [discriminate|].
  intros H. injection H as <-. exists c, p, yhat.
  split; [reflexivity|]. split; [reflexivity|]. split; [exact Hy|].
  rewrite ds_row_dates. apply merged_rows.
  - eapply Permutation_NoDup; [apply Permutation_sym, sort_by_perm|].
    apply StronglySorted_lt_NoDup. now apply extended_dates_sorted.
  - intros d Hd. now apply sort_by_In.
Qed.

(** Lines 70-74 return when the history has two rows and the forecaster
    does not raise in this run. *)
Lemma forecast_merged_total (fc : Forecaster) (filtered : DataFrame) :
  (2 <= List.length filtered)%nat ->
  forecaster_returns fc (df_prophet filtered) ->
  exists mrg, forecast_merged fc (df_prophet filtered) = inr mrg.
Proof.
  intros Hlen [[p Hfit] Hpred]. unfold forecast_merged.
  assert (Hmodel : fit fc (df_prophet filtered)
                   = inr (mkProphet
                            (sort_by Z.leb
                               (unique Z.eqb
                                  (date_column "ds" (df_prophet filtered)))) p)).
  { unfold fit. rewrite df_prophet_length.
    replace (List.length filtered <? 2)%nat with false
      by (symmetry; apply Nat.ltb_ge; lia).
    now rewrite Hfit. }
  rewrite Hmodel.
  assert (Hfut : exists future,
             make_future_dataframe
               (mkProphet
                  (sort_by Z.leb
                     (unique Z.eqb (date_column "ds" (df_prophet filtered)))) p)
               30 = inr future).
  { unfold make_future_dataframe. cbn [history_dates].
    rewrite df_prophet_dates, history_max.
    destruct (Zmax_list_some (col date filtered)) as [c Hc].
    { destruct filtered; simpl in *; [lia | discriminate]. }
    rewrite Hc. eauto. }
  destruct Hfut as [future Hfut]. rewrite Hfut.
  destruct (Hpred _ _ Hmodel Hfut) as [yhat Hy].
  unfold predict. rewrite Hy. eauto.
Qed.

Lemma Zmin_exists (l : list Z) :
  l <> [] -> exists lo, In lo l /\ forall d, In d l -> lo <= d.
Proof.
  induction l as [|a l IH]; [congruence|]. intros _.
  destruct l as [|b l].
  - exists a. split; [now left|]. intros d [<- | []]. lia.
  - destruct IH as [lo [Hin Hle]]; [discriminate|].
    destruct (Z_le_gt_dec a lo).
    + exists a. split; [now left|]. intros d [<- | Hd]; [lia|].
      specialize (Hle d Hd). lia.
    + exists lo. split; [now right|]. intros d [<- | Hd]; [lia | auto].
Qed.

(** C2 (as stated, refuted).  A filtered table with the two distinct dates
    2024-01-01 and 2024-01-03: the forecast series starts on 2024-01-01,
    ends 30 days after 2024-01-03, and has no row for 2024-01-02. *)
Lemma C2_counterexample :
  col date (filtered_df sample_raw (Some "CA") (Some "S1") (Some "P1"))
  = [ymd 2024 1 1; ymd 2024 1 3]
  /\ exists mrg,
       forecast_merged naive_forecaster
         (df_prophet (filtered_df sample_raw (Some "CA") (Some "S1") (Some "P1"))) = inr mrg
       /\ In (ymd 2024 1 1) (date_column "ds" mrg)
       /\ In (ymd 2024 1 3 + 30) (date_column "ds" mrg)
       /\ ~ In (ymd 2024 1 2) (date_column "ds" mrg).
Proof.
  split; [reflexivity|]. eexists. split; [vm_compute; reflexivity|].
  vm_compute. intuition discriminate.
Qed.

(** C2 (amended).  On a filtered table with at least two rows on which the
    forecaster does not raise (neither fitting this table nor predicting on
    its extended dates), the dates of the forecast series are the
    distinct dates of the filtered table in ascending order followed by the
    30 consecutive days after its maximum date.  They are strictly
    increasing, start at the table's minimum date and end at its maximum
    date plus 30; and they form a gap-free daily sequence exactly when the
    table itself has a row for every day between its minimum and maximum
    date. *)
Theorem C2_forecast_dates (fc : Forecaster) (filtered : DataFrame) :
  (2 <= List.length filtered)%nat ->
  forecaster_returns fc (df_prophet filtered) ->
  exists mrg lo hi,
    forecast_merged fc (df_prophet filtered) = inr mrg
    /\ (In lo (col date filtered) /\ forall d, In d (col date filtered) -> lo <= d)
    /\ (In hi (col date filtered) /\ forall d, In d (col date filtered) -> d <= hi)
    /\ date_column "ds" mrg
       = sort_by Z.leb (unique Z.eqb (col date filtered))
         ++ map (fun k => hi + Z.of_nat k) (seq 1 30)
    /\ StronglySorted Z.lt (date_column "ds" mrg)
    /\ (forall d, In d (date_column "ds" mrg) <->
                  In d (col date filtered) \/ hi < d <= hi + 30)
    /\ In lo (date_column "ds" mrg)
    /\ In (hi + 30) (date_column "ds" mrg)
    /\ (forall d, In d (date_column "ds" mrg) -> lo <= d <= hi + 30)
    /\ ((forall d, lo <= d <= hi + 30 -> In d (date_column "ds" mrg)) <->
        (forall d, lo <= d <= hi -> In d (col date filtered))).
Proof.
  intros Hlen Hret.
  destruct (forecast_merged_total fc filtered Hlen Hret) as [mrg Hm].
  destruct (forecast_merged_inv fc filtered mrg Hm) as [hi [_ [yhat [Hc [_ [_ ->]]]]]].
  destruct (Zmin_exists (col date filtered)) as [lo [Hlo Hmin]].
  { destruct filtered; simpl in *; [lia | discriminate]. }
  unfold cutoff in Hc. rewrite df_prophet_dates in Hc.
  destruct (Zmax_list_spec _ _ Hc) as [Hhi Hmax].
  assert (Hin : forall d,
             In d (sort_by Z.leb (unique Z.eqb (col date filtered))
                   ++ future_dates hi 30) <->
             In d (col date filtered) \/ hi < d <= hi + 30).
  { intros d. rewrite in_app_iff, history_In, future_dates_In. simpl. tauto. }
  eexists. exists lo, hi. split; [exact Hm|].
  rewrite forecast_row_dates.
  split; [auto|]. split; [auto|].
  split; [now rewrite future_dates_eq|].
  split; [now apply extended_dates_sorted|].
  split; [exact Hin|].
  split; [apply Hin; now left|].
  split; [apply Hin; right; lia|].
  split.
  { intros d Hd. apply Hin in Hd as [Hd | Hd]; [|specialize (Hmin hi Hhi); lia].
    specialize (Hmin d Hd). specialize (Hmax d Hd). lia. }
  split.
  - intros Hall d Hd.
    destruct (proj1 (Hin d) (Hall d ltac:(lia))) as [H | H]; [assumption | lia].
  - intros Hall d Hd. apply Hin.
    destruct (Z_le_gt_dec d hi); [left; apply Hall; lia | right; lia].
Qed.

Lemma C2_witness :
  (2 <= List.length (filtered_df sample_raw (Some "CA") (Some "S1") (Some "P1")))%nat
  /\ forecaster_returns prophet_like_forecaster
       (df_prophet (filtered_df sample_raw (Some "CA") (Some "S1") (Some "P1")))
  /\ exists mrg,
       forecast_merged prophet_like_forecaster
         (df_prophet (filtered_df sample_raw (Some "CA") (Some "S1") (Some "P1")))
       = inr mrg
       /\ StronglySorted Z.lt (date_column "ds" mrg).
Proof.
  assert (H1 : (2 <= List.length (filtered_df sample_raw
                                    (Some "CA") (Some "S1") (Some "P1")))%nat)
    by (vm_compute; lia).
  assert (H2 : forecaster_returns prophet_like_forecaster
                 (df_prophet (filtered_df sample_raw
                                (Some "CA") (Some "S1") (Some "P1")))).
  { split; [exists tt; reflexivity|].
    intros model future Hfit Hfut.
    vm_compute in Hfit. injection Hfit as <-.
    vm_compute in Hfut. injection Hfut as <-.
    eexists. reflexivity. }
  repeat (split; [assumption|]).
  destruct (C2_forecast_dates prophet_like_forecaster
              (filtered_df sample_raw (Some "CA") (Some "S1") (Some "P1")) H1 H2)
    as [mrg [lo [hi [Hm [_ [_ [_ [Hs _]]]]]]]].
  exists mrg. split; assumption.
Defined.

(** C3 (as stated, refuted).  2024-01-01 is a date of the actual series
    (sales 10) and of the predictions, yet no row of the merged series
    carries an actual value: the merged rows have no actual column. *)
Lemma C3_counterexample :
  In [("ds", CDate (ymd 2024 1 1)); ("y", CInt 10)]
     (df_prophet (filtered_df sample_raw (Some "CA") (Some "S1") (Some "P1")))
  /\ exists mrg,
       forecast_merged naive_forecaster
         (df_prophet (filtered_df sample_raw (Some "CA") (Some "S1") (Some "P1"))) = inr mrg
       /\ In (ymd 2024 1 1) (date_column "ds" mrg)
       /\ ~ (exists row, In row mrg
                         /\ get "ds" row = Some (CDate (ymd 2024 1 1))
                         /\ get "y" row = Some (CInt 10)).
Proof.
  split; [vm_compute; auto|].
  eexists. split; [vm_compute; reflexivity|].
  split; [vm_compute; auto|].
  intros [row [Hin [_ Hy]]].
  assert (Hall : forall r,
             In r (map (forecast_row inject_Z)
                       ([ymd 2024 1 1; ymd 2024 1 3]
                        ++ future_dates (ymd 2024 1 3) 30)) ->
             get "y" r = None).
  { intros r Hr. apply in_map_iff in Hr as [d [<- _]]. reflexivity. }
  rewrite (Hall row) in Hy; [discriminate|].
  vm_compute. vm_compute in Hin. exact Hin.
Qed.

(** C3 (amended).  The merge is an inner join, on the date, of the extended
    dates with the predicted values.  When the forecaster does not raise in
    this run, the merged series has exactly one row for every date of the
    filtered table and for every one of the 30 days after its last date;
    each row holds that date and the value predicted for it, and no actual
    value. *)
Theorem C3_merge_dates_with_predictions (fc : Forecaster) (filtered : DataFrame) :
  (2 <= List.length filtered)%nat ->
  forecaster_returns fc (df_prophet filtered) ->
  exists mrg p yhat hi,
    forecast_merged fc (df_prophet filtered) = inr mrg
    /\ cutoff (df_prophet filtered) = Some hi
    /\ fit_params fc (df_prophet filtered) = inr p
    /\ predict_yhat fc p
         (map ds_row (sort_by Z.leb (unique Z.eqb (col date filtered))
                      ++ future_dates hi 30)) = inr yhat
    /\ (forall row, In row mrg <->
          exists d, (In d (col date filtered) \/ In d (future_dates hi 30))
                    /\ row = [("ds", CDate d); ("yhat", CFloat (yhat d))])
    /\ NoDup (date_column "ds" mrg)
    /\ List.length mrg = List.length (date_column "ds" mrg)
    /\ (forall row, In row mrg -> get "y" row = None).
Proof.
  intros Hlen Hret.
  destruct (forecast_merged_total fc filtered Hlen Hret) as [mrg Hm].
  destruct (forecast_merged_inv fc filtered mrg Hm)
    as [hi [p [yhat [Hc [Hfit [Hy E]]]]]].
  exists mrg, p, yhat, hi.
  split; [exact Hm|]. split; [exact Hc|]. split; [exact Hfit|].
  split; [exact Hy|].
  assert (Hrows : forall row, In row mrg <->
            exists d, (In d (col date filtered) \/ In d (future_dates hi 30))
                      /\ row = [("ds", CDate d); ("yhat", CFloat (yhat d))]).
  { intros row. rewrite E, in_map_iff. split.
    - intros [d [<- Hd]]. exists d. split; [|reflexivity].
      apply in_app_or in Hd as [Hd | Hd]; [left | now right].
      now rewrite history_In in Hd.
    - intros [d [Hd ->]]. exists d. split; [reflexivity|].
      apply in_or_app. destruct Hd as [Hd | Hd]; [left | now right].
      now rewrite history_In. }
  split; [exact Hrows|].
  split.
  { rewrite E, forecast_row_dates. apply StronglySorted_lt_NoDup.
    apply extended_dates_sorted. unfold cutoff in Hc.
    now rewrite df_prophet_dates in Hc. }
  split; [now rewrite E, forecast_row_dates, length_map|].
  intros row Hrow. apply Hrows in Hrow as [d [_ ->]]. reflexivity.
Qed.

Lemma C3_witness :
  (2 <= List.length (filtered_df sample_raw (Some "CA") (Some "S1") (Some "P1")))%nat
  /\ forecaster_returns prophet_like_forecaster
       (df_prophet (filtered_df sample_raw (Some "CA") (Some "S1") (Some "P1")))
  /\ exists mrg,
       forecast_merged prophet_like_forecaster
         (df_prophet (filtered_df sample_raw (Some "CA") (Some "S1") (Some "P1")))
       = inr mrg
       /\ forall row, In row mrg -> get "y" row = None.
Proof.
  assert (H1 : (2 <= List.length (filtered_df sample_raw
                                    (Some "CA") (Some "S1") (Some "P1")))%nat)
    by (vm_compute; lia).
  assert (H2 : forecaster_returns prophet_like_forecaster
                 (df_prophet (filtered_df sample_raw
                                (Some "CA") (Some "S1") (Some "P1")))).
  { split; [exists tt; reflexivity|].
    intros model future Hfit Hfut.
    vm_compute in Hfit. injection Hfit as <-.
    vm_compute in Hfut. injection Hfut as <-.
    eexists. reflexivity. }
  repeat (split; [assumption|]).
  destruct (C3_merge_dates_with_predictions prophet_like_forecaster
              (filtered_df sample_raw (Some "CA") (Some "S1") (Some "P1")) H1 H2)
    as [mrg [p [yhat [hi [Hm [_ [_ [_ [_ [_ [_ Hy]]]]]]]]]]].
  exists mrg. split; assumption.
Defined.

(** ** Cutoff and display table *)

Lemma filter_none {A} (f : A -> bool) (l : list A) :
  (forall x, In x l -> f x = false) -> filter f l = [].
Proof.
  induction l as [|a l IH]; intros H; simpl; [reflexivity|].
  rewrite (H a) by now left. apply IH. intros x Hx. apply H. now right.
Qed.

Lemma filter_all {A} (f : A -> bool) (l : list A) :
  (forall x, In x l -> f x = true) -> filter f l = l.
Proof.
  induction l as [|a l IH]; intros H; simpl; [reflexivity|].
  rewrite (H a) by now left. f_equal. apply IH. intros x Hx. apply H. now right.
Qed.

Lemma after_cutoff_spec (c : Z) (r : Row) :
  after_cutoff (Some c) r = true <->
  exists d, get "ds" r = Some (CDate d) /\ c < d.
Proof.
  unfold after_cutoff. split.
  - destruct (get "ds" r) as [[d| | |]|]; try discriminate.
    intros H. apply Z.ltb_lt in H. eauto.
  - intros [d [-> H]]. now apply Z.ltb_lt.
Qed.

Lemma after_cutoff_forecast_rows (yhat : Z -> Q) (c : Z) (l : list Z) :
  filter (after_cutoff (Some c)) (map (forecast_row yhat) l)
  = map (forecast_row yhat) (filter (fun d => c <? d) l).
Proof.
  induction l as [|d l IH]; [reflexivity|]. cbn [map filter].
  change (after_cutoff (Some c) (forecast_row yhat d)) with (c <? d).
  destruct (c <? d); cbn [map]; now rewrite IH.
Qed.

Lemma display_forecast_rows (yhat : Z -> Q) (c : Z) (l : list Z) :
  date_column "Date" (display_df (map (forecast_row yhat) l) (Some c))
  = filter (fun d => c <? d) l.
Proof.
  unfold display_df. rewrite after_cutoff_forecast_rows.
  unfold date_column.
  induction (filter (fun d => c <? d) l) as [|d l' IH]; [reflexivity|].
  cbn [map flat_map]. rewrite IH. reflexivity.
Qed.

(** C4.  On a non-empty input series the cutoff is the greatest date of the
    original series: it is one of its dates, no date of the series is
    later, and it is none of the dates added for the future.  The display
    table holds exactly the rows of the merged series dated strictly after
    the cutoff (with the two columns renamed); for the merged series the
    script builds, these are the rows of the 30 added days. *)
Theorem C4_cutoff_and_display (fc : Forecaster) (filtered : DataFrame) :
  filtered <> [] ->
  exists c,
    cutoff (df_prophet filtered) = Some c
    /\ In c (col date filtered)
    /\ (forall d, In d (col date filtered) -> d <= c)
    /\ ~ In c (future_dates c 30)
    /\ (forall mrg row',
          In row' (display_df mrg (Some c)) <->
          exists row d,
            In row mrg /\ get "ds" row = Some (CDate d) /\ c < d
            /\ row' = rename [("ds", "Date"); ("yhat", "Forecasted Sales")] row)
    /\ (forall mrg,
          forecast_merged fc (df_prophet filtered) = inr mrg ->
          date_column "Date" (display_df mrg (Some c)) = future_dates c 30
          /\ List.length (display_df mrg (Some c)) = 30%nat).
Proof.
  intros Hne.
  destruct (Zmax_list_some (col date filtered)) as [c Hc].
  { destruct filtered; [congruence | discriminate]. }
  exists c. destruct (Zmax_list_spec _ _ Hc) as [Hin Hmax].
  split; [unfold cutoff; now rewrite df_prophet_dates|].
  split; [assumption|]. split; [assumption|].
  split; [rewrite future_dates_In; lia|].
  split.
  { intros mrg row'. unfold display_df. rewrite in_map_iff. split.
    - intros [row [<- Hrow]]. apply filter_In in Hrow as [Hrow Hd].
      apply (after_cutoff_spec c row) in Hd as [d [Hg Hd]].
      exists row, d. auto.
    - intros [row [d [Hrow [Hg [Hd ->]]]]]. exists row. split; [reflexivity|].
      apply filter_In. split; [assumption|].
      apply (after_cutoff_spec c row). eauto. }
  intros mrg Hm.
  destruct (forecast_merged_inv fc filtered mrg Hm)
    as [c' [p [yhat [Hc' [_ [_ ->]]]]]].
  unfold cutoff in Hc'. rewrite df_prophet_dates, Hc in Hc'.
  injection Hc' as <-.
  assert (E : filter (fun d => c <? d)
                     (sort_by Z.leb (unique Z.eqb (col date filtered))
                      ++ future_dates c 30)
              = future_dates c 30).
  { rewrite filter_app, filter_none, filter_all; [reflexivity| |].
    - intros d Hd. apply Z.ltb_lt. rewrite future_dates_In in Hd. lia.
    - intros d Hd. rewrite history_In in Hd. apply Z.ltb_ge. auto. }
  split.
  - now rewrite display_forecast_rows.
  - unfold display_df.
    rewrite length_map, after_cutoff_forecast_rows, E, length_map.
    now rewrite future_dates_eq, length_map, length_seq.
Qed.

Lemma C4_witness :
  filtered_df sample_raw (Some "CA") (Some "S1") (Some "P1") <> []
  /\ exists c,
       cutoff (df_prophet (filtered_df sample_raw (Some "CA") (Some "S1") (Some "P1"))) = Some c
       /\ In c (col date (filtered_df sample_raw (Some "CA") (Some "S1") (Some "P1")))
       /\ (forall d, In d (col date (filtered_df sample_raw (Some "CA") (Some "S1") (Some "P1"))) ->
                     d <= c)
       /\ ~ In c (future_dates c 30).
Proof.
  assert (H : filtered_df sample_raw (Some "CA") (Some "S1") (Some "P1") <> [])
    by (vm_compute; discriminate).
  split; [assumption|].
  destruct (C4_cutoff_and_display naive_forecaster
              (filtered_df sample_raw (Some "CA") (Some "S1") (Some "P1")) H)
    as [c [H1 [H2 [H3 [H4 _]]]]].
  exists c. auto.
Defined.

(** * Further properties of the script *)

(** ** The filter (lines 50-54) *)

(** X3.  Filtering composes: applied to its own result with the same
    selection the filter changes nothing, and with a selection that differs
    in the state, the store or the product it leaves no row.  The result
    keeps the rows in table order: in a loaded table its index labels are
    strictly increasing. *)
Theorem X3_filter_composes (csv : list SalesRecord)
        (st so pr st' so' pr' : option string) :
  let T := load_data csv in
  filtered_df (filtered_df T st so pr) st so pr = filtered_df T st so pr
  /\ ((st, so, pr) <> (st', so', pr') ->
      filtered_df (filtered_df T st so pr) st' so' pr' = [])
  /\ StronglySorted lt (map fst (filtered_df T st so pr)).
Proof.
  intros T. split; [|split].
  - unfold filtered_df. rewrite filter_filter. apply filter_ext.
    intros ir. now destruct (selected st so pr (snd ir)).
  - intros Hneq. unfold filtered_df. rewrite filter_filter.
    apply filter_none. intros ir _.
    destruct (selected st so pr (snd ir)) eqn:E1; [|reflexivity].
    destruct (selected st' so' pr' (snd ir)) eqn:E2; [|reflexivity].
    apply selected_spec in E1 as [-> [-> ->]].
    apply selected_spec in E2 as [-> [-> ->]]. congruence.
  - unfold T, load_data, filtered_df. generalize 0%nat as start.
    induction csv as [|r csv IH]; intros start; simpl; [constructor|].
    assert (Hall : Forall (lt start)
                     (map fst (filter (fun ir => selected st so pr (snd ir))
                                      (combine (seq (S start) (List.length csv))
                                               csv)))).
    { apply Forall_forall. intros n Hn.
      apply in_map_iff in Hn as [[n' r'] [<- Hin]].
      apply filter_In in Hin as [Hin _]. apply in_combine_l in Hin.
      apply in_seq in Hin. simpl. lia. }
    destruct (selected st so pr r); simpl; [constructor|]; auto.
Qed.

(** ** The KPIs (lines 57-60) *)

Lemma latest_In (filtered : DataFrame) (r : SalesRecord) :
  latest filtered = inr r -> exists ir, In ir filtered /\ snd ir = r.
Proof.
  intros H. destruct filtered as [|a l]; [discriminate|].
  destruct (latest_nonempty (a :: l)) as [ir [E Hin]]; [discriminate|].
  rewrite E in H. injection H as <-. eauto.
Qed.

(** X4.  The row behind the latest-sales box is a row of the filtered
    table, and no row of the filtered table has a later date. *)
Theorem X4_latest_is_a_last_dated_row (filtered : DataFrame) (r : SalesRecord) :
  latest filtered = inr r ->
  (exists ir, In ir filtered /\ snd ir = r)
  /\ (forall ir, In ir filtered -> date (snd ir) <= date r).
Proof.
  intros H. split; [now apply latest_In | now apply latest_is_max].
Qed.

Lemma X4_witness :
  latest (filtered_df sample_raw (Some "CA") (Some "S1") (Some "P1"))
  = inr (mkSale (ymd 2024 1 3) "CA" "S1" "P1" 20 (1 # 2) (3 # 10))
  /\ forall ir,
       In ir (filtered_df sample_raw (Some "CA") (Some "S1") (Some "P1")) ->
       date (snd ir) <= ymd 2024 1 3.
Proof.
  assert (H : latest (filtered_df sample_raw (Some "CA") (Some "S1") (Some "P1"))
              = inr (mkSale (ymd 2024 1 3) "CA" "S1" "P1" 20 (1 # 2) (3 # 10)))
    by reflexivity.
  split; [exact H|].
  exact (proj2 (X4_latest_is_a_last_dated_row _ _ H)).
Defined.

(** X5.  The forecast starts where the latest-sales box reads from: the
    cutoff of the forecast chart is the date of the latest row. *)
Theorem X5_cutoff_is_latest_date (filtered : DataFrame) (r : SalesRecord) :
  latest filtered = inr r ->
  cutoff (df_prophet filtered) = Some (date r).
Proof.
  intros H.
  destruct (latest_In _ _ H) as [ir [Hin <-]].
  pose proof (latest_is_max _ _ H) as Hmax.
  unfold cutoff. rewrite df_prophet_dates.
  destruct (Zmax_list_some (col date filtered)) as [m Hm].
  { destruct filtered; [contradiction | discriminate]. }
  rewrite Hm. f_equal.
  apply (Zmax_list_unique (col date filtered)); auto.
  - unfold col. apply in_map_iff. eauto.
  - intros d Hd. unfold col in Hd. apply in_map_iff in Hd as [jr [<- Hj]].
    auto.
Qed.

Lemma X5_witness :
  latest (filtered_df sample_raw (Some "CA") (Some "S1") (Some "P1"))
  = inr (mkSale (ymd 2024 1 3) "CA" "S1" "P1" 20 (1 # 2) (3 # 10))
  /\ cutoff (df_prophet (filtered_df sample_raw
                           (Some "CA") (Some "S1") (Some "P1")))
     = Some (ymd 2024 1 3).
Proof.
  assert (H : latest (filtered_df sample_raw (Some "CA") (Some "S1") (Some "P1"))
              = inr (mkSale (ymd 2024 1 3) "CA" "S1" "P1" 20 (1 # 2) (3 # 10)))
    by reflexivity.
  split; [exact H|].
  exact (X5_cutoff_is_latest_date _ _ H).
Defined.

(** ** The run as a whole (lines 57-117) *)

Lemma df_prophet_sales (filtered : DataFrame) :
  int_column "y" (df_prophet filtered) = col sales filtered.
Proof.
  rewrite df_prophet_rows. unfold int_column, col.
  induction filtered as [|ir l IH]; simpl; [reflexivity | now rewrite IH].
Qed.

Lemma py_max_sales (filtered : DataFrame) :
  filtered <> [] ->
  exists top, py_max (int_column "y" (df_prophet filtered)) = inr top
              /\ In top (col sales filtered)
              /\ forall ir, In ir filtered -> sales (snd ir) <= top.
Proof.
  intros Hne. unfold py_max. rewrite df_prophet_sales.
  destruct (Zmax_list_some (col sales filtered)) as [m Hm].
  { destruct filtered; [congruence | discriminate]. }
  rewrite Hm. exists m. split; [reflexivity|].
  apply Zmax_list_spec in Hm as [Hin Hle]. split; [assumption|].
  intros ir Hir. apply Hle. unfold col. apply in_map_iff. eauto.
Qed.

(** X7.  A run of the dashboard ends in one of three ways and in no other:
    on an empty selection with IndexError and an empty page; on a forecast
    failure with that exception and the four metric boxes; or without an
    exception and with all eight outputs, in script order.  In particular
    the two aggregation charts are never on the page without the forecast
    chart. *)
Theorem X7_run_outcomes (fc : Forecaster) (raw_df : DataFrame)
        (st so pr : option string) :
  let out := run (dashboard fc raw_df st so pr) in
  (filtered_df raw_df st so pr = [] /\ out = (inl IndexError, []))
  \/ (filtered_df raw_df st so pr <> []
      /\ exists e,
           forecast_merged fc (df_prophet (filtered_df raw_df st so pr)) = inl e
           /\ uncaught out = Some e
           /\ rendered out
              = [VLatestSales; VAvgMargin; VAvgOutOfStock; VAvgDailySales])
  \/ (filtered_df raw_df st so pr <> []
      /\ exists mrg,
           forecast_merged fc (df_prophet (filtered_df raw_df st so pr)) = inr mrg
           /\ uncaught out = None
           /\ rendered out
              = [VLatestSales; VAvgMargin; VAvgOutOfStock; VAvgDailySales;
                 VForecastChart; VTop5; VStoreSales; VForecastTable]).
Proof.
  intros out. unfold out.
  destruct (filtered_df raw_df st so pr) as [|a l] eqn:Ef.
  - left. split; [reflexivity|].
    unfold run, dashboard, bind, lift. now rewrite Ef.
  - right.
    assert (Hne : filtered_df raw_df st so pr <> []) by (rewrite Ef; discriminate).
    rewrite <- Ef.
    destruct (latest_nonempty _ Hne) as [ir [E _]].
    destruct (forecast_merged fc (df_prophet (filtered_df raw_df st so pr)))
      as [e|mrg] eqn:Hf.
    + left. split; [assumption|]. exists e. split; [reflexivity|].
      unfold run, dashboard, bind, lift, render, rendered, uncaught.
      rewrite E. simpl. rewrite Hf. simpl. split; reflexivity.
    + right. split; [assumption|]. exists mrg. split; [reflexivity|].
      destruct (py_max_sales _ Hne) as [top [Ht _]].
      unfold run, dashboard, bind, lift, render, rendered, uncaught.
      rewrite E. simpl. rewrite Hf. simpl. rewrite Ht. simpl.
      split; reflexivity.
Qed.

(** X8.  When the selection has at least two rows and the forecaster does
    not raise in this run, the run completes with the eight outputs in
    script order.  The latest-sales box shows the sales of a row of the
    selection that no row is dated after; the forecast chart holds the
    actual series, the merged forecast, the cutoff and an annotation at the
    greatest sales value of the selection; and the forecast table has 30
    rows. *)
Theorem X8_run_completes (fc : Forecaster) (raw_df : DataFrame)
        (st so pr : option string) :
  let filtered := filtered_df raw_df st so pr in
  (2 <= List.length filtered)%nat ->
  forecaster_returns fc (df_prophet filtered) ->
  exists mrg top page,
    forecast_merged fc (df_prophet filtered) = inr mrg
    /\ run (dashboard fc raw_df st so pr) = (inr tt, page)
    /\ map view_of page
       = [VLatestSales; VAvgMargin; VAvgOutOfStock; VAvgDailySales;
          VForecastChart; VTop5; VStoreSales; VForecastTable]
    /\ (exists ir, In ir filtered
                   /\ (forall jr, In jr filtered ->
                                  date (snd jr) <= date (snd ir))
                   /\ In (LatestSalesBox (sales (snd ir))) page)
    /\ In top (col sales filtered)
    /\ (forall ir, In ir filtered -> sales (snd ir) <= top)
    /\ In (ForecastChart (df_prophet filtered) mrg
                         (cutoff (df_prophet filtered)) top) page
    /\ (exists rows, In (ForecastTable rows) page
                     /\ List.length rows = 30%nat).
Proof.
  intros filtered Hlen Hret.
  assert (Hne : filtered <> []).
  { intros E. rewrite E in Hlen. simpl in Hlen. lia. }
  destruct (latest_nonempty _ Hne) as [ir [E Hir]].
  destruct (forecast_merged_total fc filtered Hlen Hret) as [mrg Hm].
  destruct (py_max_sales _ Hne) as [top [Ht [Hin Hle]]].
  exists mrg, top.
  exists [ LatestSalesBox (sales (snd ir));
           AvgMarginBox (avg_margin filtered);
           AvgOutOfStockBox (avg_outstock filtered);
           AvgDailySalesBox (avg_sales filtered);
           ForecastChart (df_prophet filtered) mrg
                         (cutoff (df_prophet filtered)) top;
           Top5Chart (top5_df raw_df);
           StoreChart (store_agg raw_df);
           ForecastTable (display_df mrg (cutoff (df_prophet filtered))) ].
  split; [assumption|].
  split.
  { unfold run, dashboard, bind, lift, render. fold filtered.
    rewrite E. simpl. rewrite Hm. simpl. rewrite Ht. reflexivity. }
  split; [reflexivity|].
  split.
  { exists ir. split; [assumption|]. split; [|now left].
    intros jr Hjr. now apply (latest_is_max filtered). }
  split; [assumption|]. split; [assumption|].
  split; [simpl; tauto|].
  exists (display_df mrg (cutoff (df_prophet filtered))).
  split; [simpl; tauto|].
  destruct (forecast_merged_inv fc filtered mrg Hm)
    as [c [p' [yhat [Hc [_ [_ ->]]]]]].
  rewrite Hc. unfold display_df.
  rewrite length_map, after_cutoff_forecast_rows, length_map, filter_app.
  rewrite filter_none, filter_all.
  - now rewrite app_nil_l, future_dates_eq, length_map, length_seq.
  - intros d Hd. apply Z.ltb_lt. rewrite future_dates_In in Hd. lia.
  - intros d Hd. rewrite history_In in Hd. apply Z.ltb_ge.
    unfold cutoff in Hc. rewrite df_prophet_dates in Hc.
    apply Zmax_list_spec in Hc as [_ Hmax]. auto.
Qed.

Lemma X8_witness :
  (2 <= List.length (filtered_df sample_raw (Some "CA") (Some "S1") (Some "P1")))%nat
  /\ forecaster_returns prophet_like_forecaster
       (df_prophet (filtered_df sample_raw (Some "CA") (Some "S1") (Some "P1")))
  /\ exists page,
       run (dashboard prophet_like_forecaster sample_raw
                      (Some "CA") (Some "S1") (Some "P1")) = (inr tt, page)
       /\ List.length page = 8%nat.
Proof.
  assert (H1 : (2 <= List.length (filtered_df sample_raw
                                    (Some "CA") (Some "S1") (Some "P1")))%nat)
    by (vm_compute; lia).
  assert (H2 : forecaster_returns prophet_like_forecaster
                 (df_prophet (filtered_df sample_raw
                                (Some "CA") (Some "S1") (Some "P1")))).
  { split; [exists tt; reflexivity|].
    intros model future Hfit Hfut.
    vm_compute in Hfit. injection Hfit as <-.
    vm_compute in Hfut. injection Hfut as <-.
    eexists. reflexivity. }
  repeat (split; [assumption|]).
  destruct (X8_run_completes prophet_like_forecaster sample_raw
              (Some "CA") (Some "S1") (Some "P1") H1 H2)
    as [mrg [top [page [_ [Hrun [Hviews _]]]]]].
  exists page. split; [exact Hrun|].
  rewrite <- (length_map view_of), Hviews. reflexivity.
Defined.

(** ** The aggregation charts (lines 96 and 104-105) *)

Lemma sorted_strings_NoDup (l : list string) :
  NoDup (sorted_strings (unique String.eqb l)).
Proof.
  eapply Permutation_NoDup.
  - apply Permutation_sym, sort_by_perm.
  - apply (unique_NoDup _ string_eqb_spec).
Qed.

Lemma Zsum_perm (l1 l2 : list Z) : Permutation l1 l2 -> Zsum l1 = Zsum l2.
Proof. induction 1; simpl; lia. Qed.

Lemma Zsum_indicator (k0 : string) (v : Z) (ks : list string) :
  NoDup ks ->
  Zsum (map (fun k => if String.eqb k0 k then v else 0) ks)
  = if in_dec string_dec k0 ks then v else 0.
Proof.
  induction 1 as [|k ks Hnotin Hnd IH]; simpl; [reflexivity|].
  rewrite IH. destruct (String.eqb_spec k0 k) as [E | Hneq].
  - subst k. destruct (string_dec k0 k0) as [E|Hn]; [|congruence].
    destruct (in_dec string_dec k0 ks); [contradiction | lia].
  - destruct (string_dec k k0) as [E|Hn]; [congruence|].
    destruct (in_dec string_dec k0 ks); lia.
Qed.

Lemma group_rows_cons (key : SalesRecord -> string) (a : nat * SalesRecord)
      (df : DataFrame) (k : string) :
  Zsum (col sales (group_rows key (a :: df) k))
  = (if String.eqb (key (snd a)) k then sales (snd a) else 0)
    + Zsum (col sales (group_rows key df k)).
Proof.
  unfold group_rows. simpl. now destruct (String.eqb (key (snd a)) k).
Qed.

(** Summing the exact group totals over distinct keys that cover the frame
    gives the exact total of the frame. *)
Lemma Zsum_group_totals (key : SalesRecord -> string) (df : DataFrame)
      (ks : list string) :
  NoDup ks -> (forall ir, In ir df -> In (key (snd ir)) ks) ->
  Zsum (map (fun k => Zsum (col sales (group_rows key df k))) ks)
  = Zsum (col sales df).
Proof.
  intros Hnd. induction df as [|a df IH]; intros Hcov.
  - clear Hnd Hcov. induction ks as [|k ks IHks]; [reflexivity|].
    cbn [map Zsum]. rewrite IHks. reflexivity.
  - rewrite (map_ext _ (fun k => (if String.eqb (key (snd a)) k
                                  then sales (snd a) else 0)
                                 + Zsum (col sales (group_rows key df k))))
      by (intros k; apply group_rows_cons).
    assert (Hsplit : forall (f g : string -> Z) l,
               Zsum (map (fun k => f k + g k) l)
               = Zsum (map f l) + Zsum (map g l)).
    { intros f g l. induction l; simpl; lia. }
    rewrite Hsplit, Zsum_indicator by assumption.
    rewrite IH by (intros ir Hir; apply Hcov; now right).
    destruct (in_dec string_dec (key (snd a)) ks) as [_|Hn].
    + reflexivity.
    + exfalso. apply Hn, Hcov. now left.
Qed.

(** Over non-negative sales, the rows picked by a mask add up to no more
    than the whole frame. *)
Lemma Zsum_filter_bounds (f : nat * SalesRecord -> bool) (df : DataFrame) :
  (forall ir, In ir df -> 0 <= sales (snd ir)) ->
  0 <= Zsum (col sales (filter f df)) <= Zsum (col sales df).
Proof.
  induction df as [|a df IH]; intros Hpos; simpl; [lia|].
  assert (Ha : 0 <= sales (snd a)) by (apply Hpos; now left).
  assert (Hd : 0 <= Zsum (col sales (filter f df)) <= Zsum (col sales df)).
  { apply IH. intros ir Hir. apply Hpos. now right. }
  destruct (f a); simpl; unfold col in *; lia.
Qed.

(** Without negative sales and with a total that fits in int64, every
    group total is the exact sum of its rows, and they add up to the total
    of the frame. *)
Lemma groupby_sum_exact (key : SalesRecord -> string) (df : DataFrame) :
  (forall ir, In ir df -> 0 <= sales (snd ir)) ->
  Zsum (col sales df) < 2 ^ 63 ->
  (forall k t, In (k, t) (groupby_sum key df) ->
               t = Zsum (col sales (group_rows key df k)))
  /\ Zsum (map snd (groupby_sum key df)) = Zsum (col sales df).
Proof.
  intros Hpos Hfit.
  assert (Hexact : forall k, group_total key df k
                             = Zsum (col sales (group_rows key df k))).
  { intros k. unfold group_total. apply int64_sum_exact.
    pose proof (Zsum_filter_bounds
                  (fun ir => String.eqb (key (snd ir)) k) df Hpos) as Hb.
    unfold group_rows. lia. }
  split.
  - intros k t Hin. apply groupby_sum_In in Hin as [_ ->]. apply Hexact.
  - unfold groupby_sum. rewrite map_map. simpl.
    rewrite (map_ext _ _ Hexact).
    apply Zsum_group_totals.
    + apply sorted_strings_NoDup.
    + intros ir Hir. unfold sorted_strings.
      rewrite sort_by_In, (unique_In _ string_eqb_spec).
      unfold col. apply in_map_iff. eauto.
Qed.

(** X9.  When no sales value is negative and the total sales of the table
    fit in int64, grouping loses no sales: every per-product total is the
    exact sum of its rows, the per-product totals add up to the total sales
    of the table, so do the bars of the top-N chart whenever the table has
    no more than N distinct products, and the bars of the store chart add
    up to the total sales of the rows inside the trailing window. *)
Theorem X9_group_totals_add_up (raw_df : DataFrame) (n : nat) (windowDays : Z) :
  (forall ir, In ir raw_df -> 0 <= sales (snd ir)) ->
  Zsum (col sales raw_df) < 2 ^ 63 ->
  (forall p t, In (p, t) (groupby_sum product_id raw_df) ->
               t = Zsum (col sales (group_rows product_id raw_df p)))
  /\ Zsum (map snd (groupby_sum product_id raw_df)) = Zsum (col sales raw_df)
  /\ ((List.length (unique String.eqb (col product_id raw_df)) <= n)%nat ->
      Zsum (map snd (topNProducts raw_df n)) = Zsum (col sales raw_df))
  /\ Zsum (map snd (storeSalesTrailingWindow raw_df windowDays))
     = Zsum (col sales (trailing_window raw_df windowDays)).
Proof.
  intros Hpos Hfit.
  destruct (groupby_sum_exact product_id raw_df Hpos Hfit) as [Hbars Htotal].
  split; [exact Hbars|]. split; [exact Htotal|].
  split.
  - intros Hn. unfold topNProducts, nlargest.
    rewrite firstn_all2.
    + rewrite <- Htotal. apply Zsum_perm, Permutation_map, sort_by_perm.
    + rewrite sort_by_length. unfold groupby_sum, sorted_strings.
      now rewrite length_map, sort_by_length.
  - unfold storeSalesTrailingWindow. apply groupby_sum_exact.
    + intros ir Hir. apply Hpos. unfold trailing_window in Hir.
      now apply filter_In in Hir.
    + pose proof (Zsum_filter_bounds
                    (fun ir => match latest_date raw_df with
                               | Some m => m - windowDays <=? date (snd ir)
                               | None => false
                               end) raw_df Hpos) as Hb.
      unfold trailing_window. lia.
Qed.

Lemma X9_witness :
  (forall ir, In ir sample_raw -> 0 <= sales (snd ir))
  /\ Zsum (col sales sample_raw) < 2 ^ 63
  /\ Zsum (map snd (groupby_sum product_id sample_raw))
     = Zsum (col sales sample_raw)
  /\ Zsum (map snd (storeSalesTrailingWindow sample_raw 7))
     = Zsum (col sales (trailing_window sample_raw 7)).
Proof.
  assert (H1 : forall ir, In ir sample_raw -> 0 <= sales (snd ir)).
  { intros ir Hir. vm_compute in Hir.
    destruct Hir as [<- | [<- | [<- | [<- | []]]]]; simpl; lia. }
  assert (H2 : Zsum (col sales sample_raw) < 2 ^ 63) by (vm_compute; reflexivity).
  repeat (split; [assumption|]).
  destruct (X9_group_totals_add_up sample_raw 5 7 H1 H2) as [_ [Ht [_ Hw]]].
  split; assumption.
Defined.

(** X10.  The top-N chart has exactly as many bars as the table has
    distinct products, capped at N: the top-5 chart has 5 bars as soon as
    the table holds 5 products, and none on an empty table. *)
Theorem X10_topN_bar_count (raw_df : DataFrame) (n : nat) :
  List.length (topNProducts raw_df n)
  = Nat.min n (List.length (unique String.eqb (col product_id raw_df)))
  /\ List.length (top5_df raw_df)
     = Nat.min 5 (List.length (unique String.eqb (col product_id raw_df)))
  /\ (forall p, In p (col product_id raw_df) ->
        (List.length (unique String.eqb (col product_id raw_df)) <= n)%nat ->
        In p (map fst (topNProducts raw_df n))).
Proof.
  assert (Hlen : forall m,
             List.length (topNProducts raw_df m)
             = Nat.min m (List.length (unique String.eqb (col product_id raw_df)))).
  { intros m. unfold topNProducts, nlargest.
    rewrite length_firstn, sort_by_length. unfold groupby_sum, sorted_strings.
    now rewrite length_map, sort_by_length. }
  split; [apply Hlen|]. split; [apply Hlen|].
  intros p Hp Hn. unfold topNProducts, nlargest.
  rewrite firstn_all2.
  - apply in_map_iff. exists (p, group_total product_id raw_df p).
    split; [reflexivity|]. apply sort_by_In. now apply groupby_sum_In.
  - rewrite sort_by_length. unfold groupby_sum, sorted_strings.
    now rewrite length_map, sort_by_length.
Qed.

(** X11.  With a window of zero or more days the store chart always shows
    the stores that sold on the table's last date, so it is empty only for
    an empty table; a store with no row inside the window has no bar. *)
Theorem X11_store_chart_covers_last_date (raw_df : DataFrame)
        (windowDays m : Z) :
  latest_date raw_df = Some m ->
  0 <= windowDays ->
  (forall ir, In ir raw_df -> date (snd ir) = m ->
     In (store_id (snd ir)) (map fst (storeSalesTrailingWindow raw_df windowDays)))
  /\ storeSalesTrailingWindow raw_df windowDays <> []
  /\ (forall s, (forall ir, In ir raw_df -> store_id (snd ir) = s ->
                            date (snd ir) < m - windowDays) ->
                ~ In s (map fst (storeSalesTrailingWindow raw_df windowDays))).
Proof.
  intros Hm Hw.
  assert (Hcov : forall ir, In ir raw_df -> date (snd ir) = m ->
            In (store_id (snd ir))
               (map fst (storeSalesTrailingWindow raw_df windowDays))).
  { intros ir Hir Hd. unfold storeSalesTrailingWindow.
    rewrite groupby_sum_keys. unfold sorted_strings.
    rewrite sort_by_In, (unique_In _ string_eqb_spec).
    unfold col. apply in_map_iff. exists ir. split; [reflexivity|].
    apply (trailing_window_In _ _ _ _ Hm). split; [assumption | lia]. }
  split; [exact Hcov|]. split.
  - destruct (latest_date_spec _ _ Hm) as [Hin _].
    unfold col in Hin. apply in_map_iff in Hin as [ir [Hd Hir]].
    specialize (Hcov ir Hir Hd). intros E. rewrite E in Hcov. contradiction.
  - intros s Hs Hin. unfold storeSalesTrailingWindow in Hin.
    rewrite groupby_sum_keys in Hin. unfold sorted_strings in Hin.
    rewrite sort_by_In, (unique_In _ string_eqb_spec) in Hin.
    unfold col in Hin. apply in_map_iff in Hin as [ir [Hst Hir]].
    apply (trailing_window_In _ _ _ _ Hm) in Hir as [Hir Hd].
    specialize (Hs ir Hir Hst). lia.
Qed.

Lemma X11_witness :
  latest_date sample_raw = Some (ymd 2024 1 10)
  /\ 0 <= 7
  /\ storeSalesTrailingWindow sample_raw 7 <> [].
Proof.
  assert (H1 : latest_date sample_raw = Some (ymd 2024 1 10)) by reflexivity.
  assert (H2 : 0 <= 7) by lia.
  repeat (split; [assumption|]).
  exact (proj1 (proj2 (X11_store_chart_covers_last_date sample_raw 7
                         (ymd 2024 1 10) H1 H2))).
Defined.

(** ** The forecast table (lines 113-117) *)

Lemma rename_forecast_row (yhat : Z -> Q) (d : Z) :
  rename [("ds", "Date"); ("yhat", "Forecasted Sales")] (forecast_row yhat d)
  = [("Date", CDate d); ("Forecasted Sales", CFloat (yhat d))].
Proof. reflexivity. Qed.

(** X13.  The forecast table of a run whose forecast succeeded: its rows
    are the 30 days after the last observed date, in order, each with the
    two columns Date and Forecasted Sales and the value that the
    forecaster, fitted on this selection, predicted for that day on the
    extended dates; no row of the history and no column of the merged
    frame's names is in it. *)
Theorem X13_forecast_table_rows (fc : Forecaster) (filtered : DataFrame)
        (mrg : Frame) :
  forecast_merged fc (df_prophet filtered) = inr mrg ->
  exists c p yhat,
    cutoff (df_prophet filtered) = Some c
    /\ fit_params fc (df_prophet filtered) = inr p
    /\ predict_yhat fc p
         (map ds_row (sort_by Z.leb (unique Z.eqb (col date filtered))
                      ++ future_dates c 30)) = inr yhat
    /\ display_df mrg (cutoff (df_prophet filtered))
       = map (fun k => [ ("Date", CDate (c + Z.of_nat k));
                         ("Forecasted Sales", CFloat (yhat (c + Z.of_nat k))) ])
             (seq 1 30)
    /\ (forall row, In row (display_df mrg (cutoff (df_prophet filtered))) ->
          get "ds" row = None /\ get "yhat" row = None
          /\ exists d, get "Date" row = Some (CDate d) /\ c < d <= c + 30
                       /\ get "Forecasted Sales" row = Some (CFloat (yhat d))).
Proof.
  intros Hm.
  destruct (forecast_merged_inv fc filtered mrg Hm)
    as [c [p [yhat [Hc [Hfit [Hy ->]]]]]].
  exists c, p, yhat.
  split; [assumption|]. split; [assumption|]. split; [assumption|].
  assert (E : display_df
                (map (forecast_row yhat)
                     (sort_by Z.leb (unique Z.eqb (col date filtered))
                      ++ future_dates c 30)) (Some c)
              = map (fun k => [ ("Date", CDate (c + Z.of_nat k));
                                ("Forecasted Sales",
                                 CFloat (yhat (c + Z.of_nat k))) ])
                    (seq 1 30)).
  { unfold display_df.
    rewrite after_cutoff_forecast_rows, filter_app, filter_none, filter_all.
    - rewrite app_nil_l, future_dates_eq, !map_map. apply map_ext.
      intros k. apply rename_forecast_row.
    - intros d Hd. apply Z.ltb_lt. rewrite future_dates_In in Hd. lia.
    - intros d Hd. rewrite history_In in Hd. apply Z.ltb_ge.
      unfold cutoff in Hc. rewrite df_prophet_dates in Hc.
      apply Zmax_list_spec in Hc as [_ Hmax]. auto. }
  rewrite Hc, E. split; [reflexivity|].
  intros row Hrow. apply in_map_iff in Hrow as [k [<- Hk]].
  apply in_seq in Hk. split; [reflexivity|]. split; [reflexivity|].
  exists (c + Z.of_nat k). split; [reflexivity|]. split; [lia | reflexivity].
Qed.

Lemma X13_witness :
  exists mrg,
    forecast_merged naive_forecaster
      (df_prophet (filtered_df sample_raw (Some "CA") (Some "S1") (Some "P1")))
    = inr mrg
    /\ List.length
         (display_df mrg
            (cutoff (df_prophet (filtered_df sample_raw
                                   (Some "CA") (Some "S1") (Some "P1")))))
       = 30%nat.
Proof.
  eexists. split; [vm_compute; reflexivity|].
  match goal with
  | |- List.length (display_df ?m _) = _ =>
      assert (H : forecast_merged naive_forecaster
                    (df_prophet (filtered_df sample_raw
                                   (Some "CA") (Some "S1") (Some "P1")))
                  = inr m) by (vm_compute; reflexivity);
      destruct (X13_forecast_table_rows naive_forecaster _ _ H)
        as [c [p [yhat [_ [_ [_ [E _]]]]]]];
      rewrite E
  end.
  now rewrite length_map, length_seq.
Defined.
